(** * The chat-completion client factory

    A shallow embedding of [python/samples/mem/clients/_client_creator.py]:
    the class [ClientCreator], its method [create_client] and the four
    provider paths it dispatches to.

    Python dictionaries are association lists in insertion order (the
    logged dump iterates [args.items()], so the order is observable).
    Exceptions and the effects of the method (logger calls, calls of the
    SDK constructors, reading the process environment) are threaded
    through a small state-and-exception monad.  The SDK classes are not
    part of the repository: a constructed client is the record of the
    constructor that was called and of the keyword arguments it received. *)

From Stdlib Require Import String Ascii List ZArith Bool Floats Lia.
Import ListNotations.
Open Scope string_scope.
Set Warnings "-register-all".

(** ** Values *)

(** Credentials of [azure.identity], as the terms that build them. *)
Inductive Credential : Type :=
| AzureCliCredential
| DefaultAzureCredential (kwargs : list (string * bool))
| ChainedTokenCredential (chain : list Credential).

(** The Python values that flow through the factory. *)
Inductive value : Type :=
| VNone
| VBool (b : bool)
| VInt (z : Z)
| VFloat (f : float)
| VStr (s : string)
| VDict (items : list (string * value))
| VTokenProvider (credential : Credential) (scope : string).

Definition dict : Type := list (string * value).

(** [get_bearer_token_provider(credential, scope)] *)
Definition get_bearer_token_provider (c : Credential) (scope : string) : value :=
  VTokenProvider c scope.

(** Truth value of an object in an [if]. *)
Definition truthy (v : value) : bool :=
  match v with
  | VNone => false
  | VBool b => b
  | VInt z => negb (Z.eqb z 0)
  | VFloat f => negb (PrimFloat.eqb f 0%float)
  | VStr s => negb (String.eqb s "")
  | VDict items => match items with [] => false | _ :: _ => true end
  | VTokenProvider _ _ => true
  end.

(** [v == s] for a string literal [s]. *)
Definition eq_str (v : value) (s : string) : bool :=
  match v with
  | VStr t => String.eqb t s
  | _ => false
  end.

(** ** Dictionaries *)

(** [d.get(k)] *)
Fixpoint dict_get (d : dict) (k : string) : option value :=
  match d with
  | [] => None
  | (k', v) :: d' => if String.eqb k' k then Some v else dict_get d' k
  end.

(** [k in d] *)
Definition dict_contains (d : dict) (k : string) : bool :=
  match dict_get d k with
  | Some _ => true
  | None => false
  end.

(** [d[k] = v]: an existing key keeps its position, a new one goes last. *)
Fixpoint dict_set (d : dict) (k : string) (v : value) : dict :=
  match d with
  | [] => [(k, v)]
  | (k', v') :: d' =>
      if String.eqb k' k then (k, v) :: d' else (k', v') :: dict_set d' k v
  end.

(** [d.pop(k, None)], used to compare dictionaries up to one key. *)
Definition dict_del (d : dict) (k : string) : dict :=
  filter (fun kv => negb (String.eqb (fst kv) k)) d.

(** ** Exceptions and outcomes *)

Inductive exn : Type :=
| KeyError (key : string)
| AttributeError (attr : string)
| TypeError (msg : string)
| UnboundLocalError (name : string)
| AssertionError (msg : string)
| SDKError (msg : string).              (* raised inside the SDK *)

Inductive outcome (A : Type) : Type :=
| Returns (a : A)
| Raises (e : exn).
Arguments Returns {A} a.
Arguments Raises {A} e.

(** ** Clients, logger and the world the method runs in *)

(** A client is known by the constructor call that made it.  The recorder
    also receives the logger, which is the one logger of the world. *)
Inductive Client : Type :=
| OpenAIChatCompletionClient (kwargs : dict)
| AzureOpenAIChatCompletionClient (kwargs : dict)
| ChatCompletionClientRecorder (client : Client) (mode : value) (session : value).

Inductive LogEvent : Type :=
| enter_function
| leave_function
| info (msg : string).

Record World : Type := mkWorld {
  environ : list (string * string);   (* os.environ *)
  logged : list LogEvent;             (* calls received by self.logger *)
  constructed : list Client           (* constructor calls, oldest first *)
}.

(** ** Monads *)

Class Monad (m : Type -> Type) : Type := {
  ret : forall {A}, A -> m A;
  bind : forall {A B}, m A -> (A -> m B) -> m B
}.

Declare Scope monad_scope.
Delimit Scope monad_scope with monad.
Notation "x <- c1 ;; c2" := (bind c1 (fun x => c2))
  (at level 61, c1 at next level, right associativity) : monad_scope.
Notation "' pat <- c1 ;; c2" := (bind c1 (fun x => match x with pat => c2 end))
  (at level 61, pat pattern, c1 at next level, right associativity) : monad_scope.
Notation "c1 ;; c2" := (bind c1 (fun _ => c2))
  (at level 61, right associativity) : monad_scope.
Open Scope monad_scope.

#[export] Instance Monad_outcome : Monad outcome := {
  ret := fun A a => Returns a;
  bind := fun A B c f =>
    match c with
    | Returns a => f a
    | Raises e => Raises e
    end
}.

(** A computation of the method: it reads and extends the world, and the
    world it leaves behind is kept when it raises. *)
Definition M (A : Type) : Type := World -> outcome A * World.

#[export] Instance Monad_M : Monad M := {
  ret := fun A a w => (Returns a, w);
  bind := fun A B c f w =>
    match c w with
    | (Returns a, w') => f a w'
    | (Raises e, w') => (Raises e, w')
    end
}.

Definition lift {A : Type} (o : outcome A) : M A := fun w => (o, w).

Definition raise {A : Type} (e : exn) : M A := fun w => (Raises e, w).

Definition log_event (ev : LogEvent) : M unit := fun w =>
  (Returns tt, mkWorld (environ w) (logged w ++ [ev]) (constructed w)).

(** Calling an SDK constructor: the call is recorded and the client returned. *)
Definition construct (c : Client) : M Client := fun w =>
  (Returns c, mkWorld (environ w) (logged w) (constructed w ++ [c])).

(** [os.environ.get(name)] *)
Definition environ_get (env : list (string * string)) (name : string) : option string :=
  option_map snd (find (fun kv => String.eqb (fst kv) name) env).

(** [os.getenv(name)]: [None] when the variable is unset. *)
Definition getenv (name : string) : M value := fun w =>
  (Returns
     match environ_get (environ w) name with
     | Some s => VStr s
     | None => VNone
     end, w).

(** ** Primitive operations of the language *)

(** [d[k]] on a dictionary *)
Definition getitem (d : dict) (k : string) : outcome value :=
  match dict_get d k with
  | Some v => Returns v
  | None => Raises (KeyError k)
  end.

(** [v[k]] on any value *)
Definition subscript (v : value) (k : string) : outcome value :=
  match v with
  | VDict items => getitem items k
  | _ => Raises (TypeError "object is not subscriptable with a string key")
  end.

(** [v.startswith(p)] *)
Definition startswith (v : value) (p : string) : outcome bool :=
  match v with
  | VStr s => Returns (String.prefix p s)
  | _ => Raises (AttributeError "startswith")
  end.

(** Reading a local variable that some branches leave unassigned. *)
Definition local {A : Type} (name : string) (x : option A) : outcome A :=
  match x with
  | Some a => Returns a
  | None => Raises (UnboundLocalError name)
  end.

Definition newline : string := String (ascii_of_nat 10) EmptyString.

(** ** The factory *)

Section ClientCreator.

(** Two services of the runtime that the method uses only for its log
    lines: [str(v)], which the format strings apply to the arguments,
    and the attribute [_resolved_model] that the SDK sets on a client. *)
Variable py_str : value -> string.
Variable resolved_model : Client -> value.

(** [self.config] *)
Variable config : dict.

(** Lines 14-30 of [create_client]: the arguments shared by all clients. *)
Definition shared_args : outcome dict :=
  let args : dict := [] in
  model <- getitem config "model" ;;
  let args := dict_set args "model" model in
  model <- getitem args "model" ;;
  reasoning <- startswith model "o" ;;
  if (reasoning : bool) then
    v <- getitem config "reasoning_effort" ;;
    ret (dict_set args "reasoning_effort" v)
  else
    v <- getitem config "max_completion_tokens" ;;
    let args := dict_set args "max_completion_tokens" v in
    v <- getitem config "max_retries" ;;
    let args := dict_set args "max_retries" v in
    v <- getitem config "temperature" ;;
    let args := dict_set args "temperature" v in
    v <- getitem config "presence_penalty" ;;
    let args := dict_set args "presence_penalty" v in
    v <- getitem config "frequency_penalty" ;;
    let args := dict_set args "frequency_penalty" v in
    v <- getitem config "top_p" ;;
    ret (dict_set args "top_p" v).

(** Each path returns the client, the provenance string and the argument
    dictionary as the path left it: [args] is one object, mutated in
    place and read again by [create_client] for its log. *)
Definition path : Type := M (Client * string * dict).

Definition create_oai_client (args : dict) : path :=
  args <- (if dict_contains config "api_key"
           then v <- lift (getitem config "api_key") ;;
                ret (dict_set args "api_key" v)
           else ret args) ;;
  client <- construct (OpenAIChatCompletionClient args) ;;
  ret (client, "  created through OpenAI", args).

Definition create_aoai_client (args : dict) : path :=
  let token_provider :=
    get_bearer_token_provider (DefaultAzureCredential [])
      "https://cognitiveservices.azure.com/.default" in
  model <- lift (getitem config "model") ;;
  let '(azure_deployment, azure_endpoint) :=
    if eq_str model "gpt-4o-2024-11-20"
    then (Some "gpt-4o", Some "https://agentic1.openai.azure.com/")
    else (None, None) in
  '(azure_deployment, azure_endpoint) <-
    (if eq_str model "gpt-4.1"
     then ret (Some "gpt-4.1", Some "https://aipmaker.openai.azure.com/")
     else
       (* the [else] of the second [if]: the first one is not an [elif] *)
       raise (AssertionError "Unsupported model")) ;;
  let api_version := "2024-12-01-preview" in
  let args := dict_set args "azure_ad_token_provider" token_provider in
  azure_deployment <- lift (local "azure_deployment" azure_deployment) ;;
  let args := dict_set args "azure_deployment" (VStr azure_deployment) in
  azure_endpoint <- lift (local "azure_endpoint" azure_endpoint) ;;
  let args := dict_set args "azure_endpoint" (VStr azure_endpoint) in
  let args := dict_set args "api_version" (VStr api_version) in
  client <- construct (AzureOpenAIChatCompletionClient args) ;;
  ret (client, "  created through Azure OpenAI", args).

(** The [if]/[elif] chain of [create_trapi_client]: the deployment name
    and, where the branch assigns it, the local [model_version]. *)
Definition trapi_branch (model : value) : option (string * option string) :=
  if eq_str model "gpt-4o-2024-08-06" then Some ("gpt-4o_2024-08-06", None)
  else if eq_str model "gpt-4o-2024-05-13" then Some ("gpt-4o_2024-05-13", None)
  else if eq_str model "gpt-4o-2024-11-20" then Some ("gpt-4o_2024-11-20", None)
  else if eq_str model "gpt-4.1-2025-04-14" then Some ("gpt-4.1_2025-04-14", None)
  else if eq_str model "o1-preview" then Some ("o1-preview_2024-09-12", None)
  else if eq_str model "o1" then Some ("o1_2024-12-17", None)
  else if eq_str model "o3-mini" then Some ("o3-mini_2025-01-31", Some "2025-01-31")
  else if eq_str model "o4-mini" then Some ("o4-mini_2025-04-16", Some "2025-04-16")
  else if eq_str model "o4-mini-2025-04-16"
       then Some ("o4-mini_2025-04-16", Some "2025-04-16")
  else None.

Definition trapi_token_provider : value :=
  get_bearer_token_provider
    (ChainedTokenCredential
       [ AzureCliCredential;
         DefaultAzureCredential
           [ ("exclude_cli_credential", true);
             ("exclude_environment_credential", true);
             ("exclude_shared_token_cache_credential", true);
             ("exclude_developer_cli_credential", true);
             ("exclude_powershell_credential", true);
             ("exclude_interactive_browser_credential", true);
             ("exclude_visual_studio_code_credentials", true) ] ])
    "api://trapi/.default".

Definition create_trapi_client (args : dict) : path :=
  let token_provider := trapi_token_provider in
  model <- lift (getitem config "model") ;;
  '(azure_deployment, model_version) <-
    match trapi_branch model with
    | Some locals => ret locals
    | None => raise (AssertionError "Unsupported model")
    end ;;
  let trapi_suffix := "msraif/shared" in
  let endpoint := "https://trapi.research.microsoft.com/" ++ trapi_suffix in
  let api_version := "2025-03-01-preview" in
  let args := dict_set args "azure_ad_token_provider" token_provider in
  let args := dict_set args "azure_deployment" (VStr azure_deployment) in
  args <- (if eq_str model "o3-mini"
           then model_version <- lift (local "model_version" model_version) ;;
                ret (dict_set args "model_version" (VStr model_version))
           else ret args) ;;
  let args := dict_set args "azure_endpoint" (VStr endpoint) in
  let args := dict_set args "api_version" (VStr api_version) in
  client <- construct (AzureOpenAIChatCompletionClient args) ;;
  ret (client, "  created through TRAPI", args).

Definition phi_model_info : value :=
  VDict [ ("vision", VBool false);
          ("function_calling", VBool false);
          ("json_output", VBool false);
          ("family", VStr "phi");
          ("structured_output", VBool false);
          ("multiple_system_messages", VBool false) ].

Definition create_phi_client (args : dict) : path :=
  key <- getenv "PHYAGI_API_KEY" ;;
  let args := dict_set args "api_key" key in
  let args := dict_set args "base_url" (VStr "https://gateway.phyagi.net/api") in
  let args := dict_set args "model_info" phi_model_info in
  client <- construct (OpenAIChatCompletionClient args) ;;
  ret (client, "  created through Azure OpenAI", args).

(** Lines 32-43: the dispatch on [config["provider"]]. *)
Definition dispatch (args : dict) : path :=
  provider <- lift (getitem config "provider") ;;
  if eq_str provider "openai" then create_oai_client args
  else if eq_str provider "azure_openai" then create_aoai_client args
  else if eq_str provider "trapi" then create_trapi_client args
  else if eq_str provider "phi" then create_phi_client args
  else raise (AssertionError "Invalid client provider").

(** Lines 49-52: the dump of the arguments, one line per entry. *)
Definition args_str (args : dict) : string :=
  String.concat newline
    (map (fun kv => "    " ++ fst kv ++ ": " ++ py_str (snd kv))
       (filter (fun kv => negb (String.eqb (fst kv) "api_key")) args)).

(** Lines 55-65: the recorder gated by its [enabled] entry. *)
Definition wrap_ChatCompletionClientRecorder (client : Client) : M Client :=
  if dict_contains config "ChatCompletionClientRecorder" then
    wrapper_config <- lift (getitem config "ChatCompletionClientRecorder") ;;
    enabled <- lift (subscript wrapper_config "enabled") ;;
    if truthy enabled then
      mode <- lift (subscript wrapper_config "mode") ;;
      session_name <- lift (subscript wrapper_config "session_name") ;;
      construct (ChatCompletionClientRecorder client mode session_name)
    else ret client
  else ret client.

(** Lines 67-71: the recorder that reads no [enabled] entry. *)
Definition wrap_ClientRecorder (client : Client) : M Client :=
  if dict_contains config "ClientRecorder" then
    wrapper_config <- lift (getitem config "ClientRecorder") ;;
    mode <- lift (subscript wrapper_config "mode") ;;
    session_filename <- lift (subscript wrapper_config "session_filename") ;;
    construct (ChatCompletionClientRecorder client mode session_filename)
  else ret client.

Definition create_client : M Client :=
  log_event enter_function ;;
  args <- lift shared_args ;;
  '(client, source, args) <- dispatch args ;;
  log_event (info ("Client:  " ++ py_str (resolved_model client))) ;;
  log_event (info source) ;;
  log_event (info ("  Client args:" ++ newline ++ args_str args)) ;;
  client <- wrap_ChatCompletionClientRecorder client ;;
  client <- wrap_ClientRecorder client ;;
  log_event leave_function ;;
  ret client.

(** The part of [create_client] that follows the dispatch (lines 45-74),
    named so that the lemmas below can speak about it. *)
Definition after_dispatch (client : Client) (source : string) (args : dict) : M Client :=
  log_event (info ("Client:  " ++ py_str (resolved_model client))) ;;
  log_event (info source) ;;
  log_event (info ("  Client args:" ++ newline ++ args_str args)) ;;
  client <- wrap_ChatCompletionClientRecorder client ;;
  client <- wrap_ClientRecorder client ;;
  log_event leave_function ;;
  ret client.

End ClientCreator.

(** ** Vocabulary of the statements *)

(** The world once [enter_function] has been logged. *)
Definition entered (w : World) : World :=
  mkWorld (environ w) (logged w ++ [enter_function]) (constructed w).

(** The clients constructed between two worlds. *)
Definition new_clients (w w' : World) : list Client :=
  skipn (length (constructed w)) (constructed w').

(** The log lines that are argument dumps (line 53). *)
Definition is_dump (ev : LogEvent) : bool :=
  match ev with
  | info msg => String.prefix ("  Client args:" ++ newline) msg
  | _ => false
  end.

Definition logged_dumps (w : World) : list LogEvent := filter is_dump (logged w).

(** The keys of the two families of shared arguments (lines 22 and 25-30). *)
Definition sampling_keys : list string :=
  [ "max_completion_tokens"; "max_retries"; "temperature";
    "presence_penalty"; "frequency_penalty"; "top_p" ].

(** The model names compared against in [create_aoai_client] and in
    [create_trapi_client], in the order of the source. *)
Definition aoai_models : list string := [ "gpt-4o-2024-11-20"; "gpt-4.1" ].

Definition trapi_models : list string :=
  [ "gpt-4o-2024-08-06"; "gpt-4o-2024-05-13"; "gpt-4o-2024-11-20";
    "gpt-4.1-2025-04-14"; "o1-preview"; "o1"; "o3-mini"; "o4-mini";
    "o4-mini-2025-04-16" ].

(** The provider is one that the dispatch of lines 34-41 knows. *)
Definition recognized_provider (provider : value) : bool :=
  eq_str provider "openai" || eq_str provider "azure_openai"
  || eq_str provider "trapi" || eq_str provider "phi".

(** The mapping of a provider that has one. *)
Definition mapped_models (provider : string) : list string :=
  if String.eqb provider "azure_openai" then aoai_models
  else if String.eqb provider "trapi" then trapi_models
  else [].

(** The branch of [create_trapi_client] taken for [model] assigns the
    local [model_version]. *)
Definition carries_model_version (model : string) : bool :=
  match trapi_branch (VStr model) with
  | Some (_, Some _) => true
  | _ => false
  end.

(** What every path guarantees: when it raises it has constructed nothing,
    and when it returns it has constructed exactly the client it returns,
    from the arguments it returns, which still hold the model they held;
    its provenance string does not read as an argument dump. *)
Definition path_post (args : dict) (w : World)
    (r : outcome (Client * string * dict) * World) : Prop :=
  match r with
  | (Raises _, w') => w' = w
  | (Returns (client, source, args'), w') =>
      w' = mkWorld (environ w) (logged w) (constructed w ++ [client]) /\
      (client = OpenAIChatCompletionClient args' \/
       client = AzureOpenAIChatCompletionClient args') /\
      dict_get args' "model" = dict_get args "model" /\
      is_dump (info source) = false
  end.

(** The client is a recording wrapper. *)
Definition is_recorder (c : Client) : Prop :=
  match c with
  | ChatCompletionClientRecorder _ _ _ => True
  | _ => False
  end.

(** The world with more constructor calls recorded. *)
Definition add_clients (w : World) (l : list Client) : World :=
  mkWorld (environ w) (logged w) (constructed w ++ l).

(** A recorder step raises, or hands the client back, or wraps it once. *)
Inductive wrap_step (client : Client) (w : World) : outcome Client * World -> Prop :=
| wrap_raises e : wrap_step client w (Raises e, w)
| wrap_skips : wrap_step client w (Returns client, w)
| wrap_wraps mode session :
    wrap_step client w
      (Returns (ChatCompletionClientRecorder client mode session),
       add_clients w [ChatCompletionClientRecorder client mode session]).

(** The world after the three log lines of lines 46-53. *)
Definition reported (py_str : value -> string) (resolved_model : Client -> value)
    (client : Client) (source : string) (args : dict) (w : World) : World :=
  mkWorld (environ w)
    (((logged w ++ [info ("Client:  " ++ py_str (resolved_model client))])
        ++ [info source])
       ++ [info ("  Client args:" ++ newline ++ args_str py_str args)])
    (constructed w).

(** Two configurations that differ at most in their [api_key] entry. *)
Definition agree (c1 c2 : dict) : Prop :=
  forall k, k <> "api_key" -> dict_get c1 k = dict_get c2 k.

(** The arguments a path resolved, without their [api_key] entry. *)
Definition resolved_dump (o : outcome (Client * string * dict)) : option dict :=
  match o with
  | Returns (_, _, args) => Some (dict_del args "api_key")
  | Raises _ => None
  end.

(** The deployment names of the TRAPI chain, branch by branch. *)
Definition trapi_deployments : list (string * string) :=
  [ ("gpt-4o-2024-08-06", "gpt-4o_2024-08-06");
    ("gpt-4o-2024-05-13", "gpt-4o_2024-05-13");
    ("gpt-4o-2024-11-20", "gpt-4o_2024-11-20");
    ("gpt-4.1-2025-04-14", "gpt-4.1_2025-04-14");
    ("o1-preview", "o1-preview_2024-09-12");
    ("o1", "o1_2024-12-17");
    ("o3-mini", "o3-mini_2025-01-31");
    ("o4-mini", "o4-mini_2025-04-16");
    ("o4-mini-2025-04-16", "o4-mini_2025-04-16") ].

(** A [str] good enough to run the examples: exact on [None], booleans and
    strings, a placeholder elsewhere. *)
Definition str_basic (v : value) : string :=
  match v with
  | VNone => "None"
  | VBool true => "True"
  | VBool false => "False"
  | VStr s => s
  | _ => "<object>"
  end.

(** [_resolved_model] as the SDK sets it for a model it does not alias. *)
Fixpoint model_of (c : Client) : value :=
  match c with
  | OpenAIChatCompletionClient kwargs
  | AzureOpenAIChatCompletionClient kwargs =>
      match dict_get kwargs "model" with Some v => v | None => VNone end
  | ChatCompletionClientRecorder inner _ _ => model_of inner
  end.

(** Example configurations. *)
Definition sampling_config (provider model : string) : dict :=
  [ ("provider", VStr provider); ("model", VStr model);
    ("max_completion_tokens", VInt 4096); ("max_retries", VInt 3);
    ("temperature", VFloat 0.5%float); ("presence_penalty", VFloat 0%float);
    ("frequency_penalty", VFloat 0%float); ("top_p", VFloat 1%float) ].

Definition reasoning_config (provider model : string) : dict :=
  [ ("provider", VStr provider); ("model", VStr model);
    ("reasoning_effort", VStr "high") ].

Definition empty_world : World := mkWorld [] [] [].

(** Two recorder entries, both with a false [enabled]. *)
Definition recorder_off : string * value :=
  ("ChatCompletionClientRecorder",
   VDict [ ("enabled", VBool false); ("mode", VStr "record");
           ("session_name", VStr "session") ]).

Definition second_recorder_off : string * value :=
  ("ClientRecorder",
   VDict [ ("enabled", VBool false); ("mode", VStr "replay");
           ("session_filename", VStr "session.json") ]).

Definition o1_client : Client :=
  OpenAIChatCompletionClient [ ("model", VStr "o1"); ("reasoning_effort", VStr "high") ].

(** The clients a client is made of, innermost first: a recorder is its
    inner client's layers and then itself. *)
Fixpoint layers (c : Client) : list Client :=
  match c with
  | ChatCompletionClientRecorder inner _ _ => (layers inner ++ [c])%list
  | _ => [c]
  end.

(** The SDK client at the core of a client, and the arguments it received. *)
Fixpoint unwrap (c : Client) : Client :=
  match c with
  | ChatCompletionClientRecorder inner _ _ => unwrap inner
  | _ => c
  end.

Fixpoint kwargs_of (c : Client) : dict :=
  match c with
  | OpenAIChatCompletionClient kwargs
  | AzureOpenAIChatCompletionClient kwargs => kwargs
  | ChatCompletionClientRecorder inner _ _ => kwargs_of inner
  end.

(** The provenance string that each path returns (lines 81, 106, 163 and
    177), by the provider that leads to the path. *)
Definition provenance (provider : value) : option string :=
  if eq_str provider "openai" then Some "  created through OpenAI"
  else if eq_str provider "azure_openai" then Some "  created through Azure OpenAI"
  else if eq_str provider "trapi" then Some "  created through TRAPI"
  else if eq_str provider "phi" then Some "  created through Azure OpenAI"
  else None.

(** The three [info] lines of lines 46-53. *)
Definition client_lines (py_str : value -> string) (resolved_model : Client -> value)
    (client : Client) (source : string) (args : dict) : list LogEvent :=
  [ info ("Client:  " ++ py_str (resolved_model client));
    info source;
    info ("  Client args:" ++ newline ++ args_str py_str args) ].

(** The log events added between two worlds. *)
Definition new_events (w w' : World) : list LogEvent :=
  skipn (length (logged w)) (logged w').

(** A configuration with both recorders switched on. *)
Definition recorder_on : string * value :=
  ("ChatCompletionClientRecorder",
   VDict [ ("enabled", VBool true); ("mode", VStr "record");
           ("session_name", VStr "session") ]).

(** The shared arguments of [reasoning_config _ "o1"]. *)
Definition o1_args : dict :=
  [ ("model", VStr "o1"); ("reasoning_effort", VStr "high") ].





(** * Properties *)

(** ** Dictionaries *)

Lemma dict_get_set_same (d : dict) (k : string) (v : value) :
  dict_get (dict_set d k v) k = Some v.
Proof.
  induction d as [|[k' v'] d IH]; simpl.
  - now rewrite String.eqb_refl.
  - destruct (String.eqb k' k) eqn:E; simpl.
    + now rewrite String.eqb_refl.
    + now rewrite E.
Qed.

Lemma dict_get_set_other (d : dict) (k k' : string) (v : value) :
  k <> k' -> dict_get (dict_set d k v) k' = dict_get d k'.
Proof.
  intros Hk. induction d as [|[k0 v0] d IH]; simpl.
  - destruct (String.eqb_spec k k'); [contradiction | reflexivity].
  - destruct (String.eqb_spec k0 k) as [->|Hne]; simpl.
    + destruct (String.eqb_spec k k'); [contradiction | reflexivity].
    + now rewrite IH.
Qed.

Lemma dict_get_del_other (d : dict) (k k' : string) :
  k <> k' -> dict_get (dict_del d k) k' = dict_get d k'.
Proof.
  intros Hk. induction d as [|[k0 v0] d IH]; simpl; [reflexivity|].
  destruct (String.eqb_spec k0 k) as [->|Hne]; simpl.
  - destruct (String.eqb_spec k k'); [contradiction | exact IH].
  - now rewrite IH.
Qed.

(** ** The shared arguments *)

Lemma shared_args_reasoning (config : dict) (m : string) :
  dict_get config "model" = Some (VStr m) ->
  String.prefix "o" m = true ->
  shared_args config =
    (v <- getitem config "reasoning_effort" ;;
     ret [("model", VStr m); ("reasoning_effort", v)]).
Proof.
  intros Hm Hp. unfold shared_args, getitem at 1. rewrite Hm. simpl.
  rewrite Hp. reflexivity.
Qed.

Lemma shared_args_sampling (config : dict) (m : string) :
  dict_get config "model" = Some (VStr m) ->
  String.prefix "o" m = false ->
  shared_args config =
    (v1 <- getitem config "max_completion_tokens" ;;
     v2 <- getitem config "max_retries" ;;
     v3 <- getitem config "temperature" ;;
     v4 <- getitem config "presence_penalty" ;;
     v5 <- getitem config "frequency_penalty" ;;
     v6 <- getitem config "top_p" ;;
     ret [("model", VStr m); ("max_completion_tokens", v1); ("max_retries", v2);
          ("temperature", v3); ("presence_penalty", v4);
          ("frequency_penalty", v5); ("top_p", v6)]).
Proof.
  intros Hm Hp. unfold shared_args, getitem at 1. rewrite Hm. simpl.
  rewrite Hp. reflexivity.
Qed.

(** When the shared arguments are built, the model is a string, and the
    arguments hold it under ["model"] and nothing under the keys that the
    provider paths add. *)
Lemma shared_args_returns (config args : dict) :
  shared_args config = Returns args ->
  exists m,
    dict_get config "model" = Some (VStr m) /\
    dict_get args "model" = Some (VStr m) /\
    dict_get args "api_key" = None /\
    dict_get args "model_version" = None.
Proof.
  unfold shared_args, getitem at 1.
  destruct (dict_get config "model") as [model|] eqn:Hm; simpl; [|discriminate].
  destruct model as [ | | | |m| | ]; simpl; try discriminate.
  intros H. exists m. split; [reflexivity|].
  destruct (String.prefix "o" m).
  - unfold getitem in H. destruct (dict_get config "reasoning_effort");
      simpl in H; [|discriminate].
    injection H as <-. repeat split.
  - unfold getitem in H.
    destruct (dict_get config "max_completion_tokens"); simpl in H; [|discriminate].
    destruct (dict_get config "max_retries"); simpl in H; [|discriminate].
    destruct (dict_get config "temperature"); simpl in H; [|discriminate].
    destruct (dict_get config "presence_penalty"); simpl in H; [|discriminate].
    destruct (dict_get config "frequency_penalty"); simpl in H; [|discriminate].
    destruct (dict_get config "top_p"); simpl in H; [|discriminate].
    injection H as <-. repeat split.
Qed.

(** C2. The shared arguments follow the model family, and the branch is
    two-way: for a model name that starts with the letter o they hold
    [reasoning_effort] and none of the six sampling keys, for any other
    name they hold the six sampling keys and not [reasoning_effort].  In
    each family the arguments are built as soon as the configuration has
    the entries the family reads. *)
Theorem shared_args_family (config : dict) (m : string) :
  dict_get config "model" = Some (VStr m) ->
  (String.prefix "o" m = true ->
     (dict_contains config "reasoning_effort" = true ->
        exists args, shared_args config = Returns args) /\
     (forall args, shared_args config = Returns args ->
        dict_contains args "reasoning_effort" = true /\
        forallb (fun k => negb (dict_contains args k)) sampling_keys = true)) /\
  (String.prefix "o" m = false ->
     (forallb (dict_contains config) sampling_keys = true ->
        exists args, shared_args config = Returns args) /\
     (forall args, shared_args config = Returns args ->
        forallb (dict_contains args) sampling_keys = true /\
        dict_contains args "reasoning_effort" = false)).
Proof.
  intros Hm. split; intros Hp.
  - rewrite (shared_args_reasoning config m Hm Hp). unfold getitem, dict_contains.
    destruct (dict_get config "reasoning_effort") as [v|]; simpl; split.
    + intros _. eexists. reflexivity.
    + intros args [= <-]. split; reflexivity.
    + discriminate.
    + discriminate.
  - rewrite (shared_args_sampling config m Hm Hp).
    unfold sampling_keys, getitem, dict_contains. simpl forallb at 1.
    destruct (dict_get config "max_completion_tokens"); simpl;
      [|split; [discriminate | discriminate]].
    destruct (dict_get config "max_retries"); simpl;
      [|split; [discriminate | discriminate]].
    destruct (dict_get config "temperature"); simpl;
      [|split; [discriminate | discriminate]].
    destruct (dict_get config "presence_penalty"); simpl;
      [|split; [discriminate | discriminate]].
    destruct (dict_get config "frequency_penalty"); simpl;
      [|split; [discriminate | discriminate]].
    destruct (dict_get config "top_p"); simpl;
      [|split; [discriminate | discriminate]].
    split.
    + intros _. eexists. reflexivity.
    + intros args [= <-]. split; reflexivity.
Qed.

(** ** The provider paths *)

Ltac other_key := rewrite dict_get_set_other by discriminate.

Lemma create_oai_client_post (config args : dict) (w : World) :
  path_post args w (create_oai_client config args w).
Proof.
  unfold create_oai_client, dict_contains, getitem.
  destruct (dict_get config "api_key") as [v|]; simpl.
  - repeat split; [now left | now other_key].
  - repeat split. now left.
Qed.

Lemma create_aoai_client_post (config args : dict) (w : World) :
  path_post args w (create_aoai_client config args w).
Proof.
  unfold create_aoai_client, getitem.
  destruct (dict_get config "model") as [model|]; simpl; [|reflexivity].
  destruct (eq_str model "gpt-4o-2024-11-20"), (eq_str model "gpt-4.1"); simpl;
    try reflexivity;
    (repeat split; [now right | now repeat other_key]).
Qed.

Lemma create_trapi_client_post (config args : dict) (w : World) :
  path_post args w (create_trapi_client config args w).
Proof.
  unfold create_trapi_client, getitem.
  destruct (dict_get config "model") as [model|]; simpl; [|reflexivity].
  destruct (trapi_branch model) as [[azure_deployment [model_version|]]|];
    simpl; [| |reflexivity];
    destruct (eq_str model "o3-mini"); simpl; try reflexivity;
    (repeat split; [now right | now repeat other_key]).
Qed.

Lemma create_phi_client_post (args : dict) (w : World) :
  path_post args w (create_phi_client args w).
Proof.
  unfold create_phi_client. simpl.
  repeat split; [now left | now repeat other_key].
Qed.

Lemma dispatch_post (config args : dict) (w : World) :
  path_post args w (dispatch config args w).
Proof.
  unfold dispatch, getitem.
  destruct (dict_get config "provider") as [provider|]; simpl; [|reflexivity].
  destruct (eq_str provider "openai"); [apply create_oai_client_post|].
  destruct (eq_str provider "azure_openai"); [apply create_aoai_client_post|].
  destruct (eq_str provider "trapi"); [apply create_trapi_client_post|].
  destruct (eq_str provider "phi"); [apply create_phi_client_post|].
  reflexivity.
Qed.

(** ** The recorders *)

Lemma wrap_ChatCompletionClientRecorder_step (config : dict) (client : Client) (w : World) :
  wrap_step client w (wrap_ChatCompletionClientRecorder config client w).
Proof.
  unfold wrap_ChatCompletionClientRecorder, dict_contains, getitem.
  destruct (dict_get config "ChatCompletionClientRecorder") as [wc|]; simpl;
    [|constructor].
  destruct (subscript wc "enabled") as [enabled|]; simpl; [|constructor].
  destruct (truthy enabled); simpl; [|constructor].
  destruct (subscript wc "mode"); simpl; [|constructor].
  destruct (subscript wc "session_name"); simpl; constructor.
Qed.

Lemma wrap_ClientRecorder_step (config : dict) (client : Client) (w : World) :
  wrap_step client w (wrap_ClientRecorder config client w).
Proof.
  unfold wrap_ClientRecorder, dict_contains, getitem.
  destruct (dict_get config "ClientRecorder") as [wc|]; simpl; [|constructor].
  destruct (subscript wc "mode"); simpl; [|constructor].
  destruct (subscript wc "session_filename"); simpl; constructor.
Qed.

(** The outcome of a recorder step does not depend on the world. *)
Lemma wrap_ChatCompletionClientRecorder_fst (config : dict) (client : Client) (w w' : World) :
  fst (wrap_ChatCompletionClientRecorder config client w) =
  fst (wrap_ChatCompletionClientRecorder config client w').
Proof.
  unfold wrap_ChatCompletionClientRecorder, dict_contains, getitem.
  destruct (dict_get config "ChatCompletionClientRecorder") as [wc|]; simpl;
    [|reflexivity].
  destruct (subscript wc "enabled") as [enabled|]; simpl; [|reflexivity].
  destruct (truthy enabled); simpl; [|reflexivity].
  destruct (subscript wc "mode"); simpl; [|reflexivity].
  destruct (subscript wc "session_name"); reflexivity.
Qed.

(** ** The method as a whole *)

Section CreateClient.

Variable py_str : value -> string.
Variable resolved_model : Client -> value.
Variable config : dict.

Lemma create_client_shared_raises (w : World) (e : exn) :
  shared_args config = Raises e ->
  create_client py_str resolved_model config w = (Raises e, entered w).
Proof. intros H. unfold create_client, lift. simpl. now rewrite H. Qed.

Lemma create_client_dispatch_raises (w w1 : World) (args : dict) (e : exn) :
  shared_args config = Returns args ->
  dispatch config args (entered w) = (Raises e, w1) ->
  create_client py_str resolved_model config w = (Raises e, w1).
Proof.
  intros H1 H2. unfold create_client, lift. simpl. rewrite H1.
  fold (entered w). now rewrite H2.
Qed.

Lemma create_client_dispatch_returns (w w1 : World) (args args' : dict)
    (client : Client) (source : string) :
  shared_args config = Returns args ->
  dispatch config args (entered w) = (Returns (client, source, args'), w1) ->
  create_client py_str resolved_model config w =
  after_dispatch py_str resolved_model config client source args' w1.
Proof.
  intros H1 H2. unfold create_client, lift. simpl. rewrite H1.
  fold (entered w). now rewrite H2.
Qed.

Lemma after_dispatch_unfold (client : Client) (source : string) (args : dict) (w : World) :
  after_dispatch py_str resolved_model config client source args w =
  match wrap_ChatCompletionClientRecorder config client
          (reported py_str resolved_model client source args w) with
  | (Returns c1, w1) =>
      match wrap_ClientRecorder config c1 w1 with
      | (Returns c2, w2) =>
          (Returns c2,
           mkWorld (environ w2) (logged w2 ++ [leave_function]) (constructed w2))
      | (Raises e, w2) => (Raises e, w2)
      end
  | (Raises e, w1) => (Raises e, w1)
  end.
Proof.
  unfold after_dispatch, reported. cbn [bind Monad_M ret log_event].
  destruct (wrap_ChatCompletionClientRecorder config client _) as [[c1|e] w1];
    [|reflexivity].
  destruct (wrap_ClientRecorder config c1 w1) as [[c2|e] w2]; reflexivity.
Qed.

Lemma reported_dumps (client : Client) (source : string) (args : dict) (w : World) :
  is_dump (info source) = false ->
  logged_dumps (reported py_str resolved_model client source args w) =
  (logged_dumps w ++ [info ("  Client args:" ++ newline ++ args_str py_str args)])%list.
Proof.
  intros Hs. unfold logged_dumps, reported. cbn [logged].
  rewrite !filter_app. cbn [filter]. rewrite Hs.
  change (is_dump (info ("Client:  " ++ py_str (resolved_model client)))) with false.
  replace (is_dump (info ("  Client args:" ++ newline ++ args_str py_str args)))
    with true.
  - cbn [app]. now rewrite !app_nil_r.
  - cbn. now destruct (args_str py_str args).
Qed.

(** After the dispatch only recorders are constructed and no dump is logged. *)
Lemma after_dispatch_effects (client : Client) (source : string) (args : dict) (w : World) :
  exists l,
    constructed (snd (after_dispatch py_str resolved_model config client source args w))
      = (constructed w ++ l)%list /\
    Forall is_recorder l /\
    logged_dumps (snd (after_dispatch py_str resolved_model config client source args w))
      = logged_dumps (reported py_str resolved_model client source args w).
Proof.
  rewrite after_dispatch_unfold.
  pose proof (wrap_ChatCompletionClientRecorder_step config client
                (reported py_str resolved_model client source args w)) as S1.
  destruct (wrap_ChatCompletionClientRecorder config client _) as [o1 w1].
  inversion S1 as [e | | mode session]; subst; clear S1.
  - exists []. cbn. now rewrite app_nil_r.
  - pose proof (wrap_ClientRecorder_step config client
                  (reported py_str resolved_model client source args w)) as S2.
    destruct (wrap_ClientRecorder config client _) as [o2 w2].
    inversion S2 as [e | | mode session]; subst; clear S2.
    + exists []. cbn. now rewrite app_nil_r.
    + exists []. cbn. unfold logged_dumps. cbn [logged].
      rewrite app_nil_r, filter_app. cbn. now rewrite app_nil_r.
    + eexists [_]. cbn. unfold logged_dumps. cbn [logged].
      rewrite filter_app. cbn. rewrite app_nil_r. repeat split.
      constructor; [exact I | constructor].
  - pose proof (wrap_ClientRecorder_step config
                  (ChatCompletionClientRecorder client mode session)
                  (add_clients (reported py_str resolved_model client source args w)
                     [ChatCompletionClientRecorder client mode session])) as S2.
    destruct (wrap_ClientRecorder config _ _) as [o2 w2].
    inversion S2 as [e | | mode2 session2]; subst; clear S2.
    + eexists [_]. cbn. repeat split. constructor; [exact I | constructor].
    + eexists [_]. cbn. unfold logged_dumps. cbn [logged].
      rewrite filter_app. cbn. rewrite app_nil_r. repeat split.
      constructor; [exact I | constructor].
    + eexists [_; _]. cbn. unfold logged_dumps. cbn [logged].
      rewrite filter_app, <- app_assoc. cbn. rewrite app_nil_r. repeat split.
      constructor; [exact I | constructor; [exact I | constructor]].
Qed.

End CreateClient.

(** ** Unsupported providers and models *)

Lemma eq_str_true (v : value) (s : string) : eq_str v s = true <-> v = VStr s.
Proof.
  destruct v; simpl; try (split; [discriminate | discriminate]).
  destruct (String.eqb_spec s0 s) as [->|Hne]; split; try reflexivity;
    try discriminate.
  intros [= ->]. contradiction.
Qed.

Lemma dispatch_unrecognized (config args : dict) (w : World) (provider : value) :
  dict_get config "provider" = Some provider ->
  recognized_provider provider = false ->
  dispatch config args w = (Raises (AssertionError "Invalid client provider"), w).
Proof.
  intros Hp Hr. unfold dispatch, getitem. rewrite Hp. simpl.
  unfold recognized_provider in Hr.
  destruct (eq_str provider "openai"); [discriminate|].
  destruct (eq_str provider "azure_openai"); [discriminate|].
  destruct (eq_str provider "trapi"); [discriminate|].
  destruct (eq_str provider "phi"); [discriminate|].
  reflexivity.
Qed.

(** In a chain of comparisons, a comparison with a name that the model is
    known to differ from is false. *)
Ltac skip_name H :=
  match goal with
  | |- context [eq_str ?v ?s] =>
      let E := fresh "E" in
      destruct (eq_str v s) eqn:E;
      [ apply eq_str_true in E; exfalso; apply (H s); [simpl; tauto | exact E] | ]
  end.

Lemma trapi_branch_unmapped (model : value) :
  (forall m, In m trapi_models -> model <> VStr m) -> trapi_branch model = None.
Proof.
  intros H. unfold trapi_branch. repeat skip_name H. reflexivity.
Qed.

Lemma create_aoai_client_unmapped (config args : dict) (w : World) (model : value) :
  dict_get config "model" = Some model ->
  (forall m, In m aoai_models -> model <> VStr m) ->
  create_aoai_client config args w = (Raises (AssertionError "Unsupported model"), w).
Proof.
  intros Hm H. unfold create_aoai_client, getitem. rewrite Hm. simpl.
  repeat skip_name H. reflexivity.
Qed.

Lemma create_trapi_client_unmapped (config args : dict) (w : World) (model : value) :
  dict_get config "model" = Some model ->
  (forall m, In m trapi_models -> model <> VStr m) ->
  create_trapi_client config args w = (Raises (AssertionError "Unsupported model"), w).
Proof.
  intros Hm H. unfold create_trapi_client, getitem. rewrite Hm. simpl.
  now rewrite (trapi_branch_unmapped model H).
Qed.

(** C3, as stated, fails: with an unrecognized provider and a model whose
    sampling entries are missing, the call stops at line 25 with a
    [KeyError], not at the assertion of line 43. *)
Lemma unknown_provider_key_error :
  dict_get (reasoning_config "bedrock" "gpt-4.1") "provider" = Some (VStr "bedrock") /\
  recognized_provider (VStr "bedrock") = false /\
  fst (create_client str_basic model_of (reasoning_config "bedrock" "gpt-4.1") empty_world)
    = Raises (KeyError "max_completion_tokens") /\
  fst (create_client str_basic model_of (reasoning_config "bedrock" "gpt-4.1") empty_world)
    <> Raises (AssertionError "Invalid client provider").
Proof. repeat split. discriminate. Qed.

(** C3, amended. A provider that is none of the four recognized strings:
    the call raises and constructs no client, whatever else the
    configuration holds.  What it raises is the assertion "Invalid client
    provider" whenever the shared arguments can be built (the model is a
    string and the entries its family reads are present), and otherwise
    the exception of the shared arguments. *)
Theorem unknown_provider_aborts (py_str : value -> string)
    (resolved_model : Client -> value) (config : dict) (w : World) (provider : value) :
  dict_get config "provider" = Some provider ->
  recognized_provider provider = false ->
  (exists e, fst (create_client py_str resolved_model config w) = Raises e) /\
  constructed (snd (create_client py_str resolved_model config w)) = constructed w /\
  (forall args, shared_args config = Returns args ->
     fst (create_client py_str resolved_model config w)
       = Raises (AssertionError "Invalid client provider")) /\
  (forall e, shared_args config = Raises e ->
     fst (create_client py_str resolved_model config w) = Raises e).
Proof.
  intros Hp Hr. destruct (shared_args config) as [args|e] eqn:Hs.
  - rewrite (create_client_dispatch_raises py_str resolved_model config w (entered w)
               args _ Hs (dispatch_unrecognized config args (entered w) provider Hp Hr)).
    repeat split; [eexists; reflexivity | discriminate].
  - rewrite (create_client_shared_raises py_str resolved_model config w e Hs).
    repeat split; [eexists; reflexivity | discriminate | now intros e' [= <-]].
Qed.

(** C4, as stated, fails: with provider trapi and a model outside its
    mapping whose sampling entries are missing, the call stops at line 25
    with a [KeyError], not at the assertion of line 150. *)
Lemma unknown_model_key_error :
  dict_get (reasoning_config "trapi" "gpt-5") "provider" = Some (VStr "trapi") /\
  dict_get (reasoning_config "trapi" "gpt-5") "model" = Some (VStr "gpt-5") /\
  existsb (String.eqb "gpt-5") (mapped_models "trapi") = false /\
  fst (create_client str_basic model_of (reasoning_config "trapi" "gpt-5") empty_world)
    = Raises (KeyError "max_completion_tokens") /\
  fst (create_client str_basic model_of (reasoning_config "trapi" "gpt-5") empty_world)
    <> Raises (AssertionError "Unsupported model").
Proof. repeat split. discriminate. Qed.

(** C4, amended. A mapped provider, azure_openai or trapi, with a model
    that is none of the names of its mapping: the call raises, returns no
    client and constructs none.  What it raises is the assertion
    "Unsupported model" whenever the shared arguments can be built (the
    model is a string and the entries its family reads are present), and
    otherwise the exception of the shared arguments. *)
Theorem unknown_model_aborts (py_str : value -> string)
    (resolved_model : Client -> value) (config : dict) (w : World) (provider : string) :
  dict_get config "provider" = Some (VStr provider) ->
  provider = "azure_openai" \/ provider = "trapi" ->
  (forall m, In m (mapped_models provider) -> dict_get config "model" <> Some (VStr m)) ->
  (exists e, fst (create_client py_str resolved_model config w) = Raises e) /\
  constructed (snd (create_client py_str resolved_model config w)) = constructed w /\
  (forall args, shared_args config = Returns args ->
     fst (create_client py_str resolved_model config w)
       = Raises (AssertionError "Unsupported model")) /\
  (forall e, shared_args config = Raises e ->
     fst (create_client py_str resolved_model config w) = Raises e).
Proof.
  intros Hp Hprov Hm. destruct (shared_args config) as [args|e] eqn:Hs.
  - destruct (shared_args_returns config args Hs) as (m & Hmodel & _).
    assert (Hd : dispatch config args (entered w)
                 = (Raises (AssertionError "Unsupported model"), entered w)).
    { unfold dispatch, getitem. rewrite Hp. simpl.
      destruct Hprov as [-> | ->]; simpl.
      - apply (create_aoai_client_unmapped config args _ (VStr m) Hmodel).
        intros m' Hin [= ->]. exact (Hm m' Hin Hmodel).
      - apply (create_trapi_client_unmapped config args _ (VStr m) Hmodel).
        intros m' Hin [= ->]. exact (Hm m' Hin Hmodel). }
    rewrite (create_client_dispatch_raises py_str resolved_model config w (entered w)
               args _ Hs Hd).
    repeat split; [eexists; reflexivity | discriminate].
  - rewrite (create_client_shared_raises py_str resolved_model config w e Hs).
    repeat split; [eexists; reflexivity | discriminate | now intros e' [= <-]].
Qed.

(** ** The mapped models *)

Ltac dict_solve :=
  repeat first [ rewrite dict_get_set_same
               | rewrite dict_get_set_other by discriminate ];
  try reflexivity.

(** The first comparison of [create_aoai_client] is an [if], not an
    [elif]: its model falls into the [else] of the second one. *)
Lemma create_aoai_client_gpt4o (config args : dict) (w : World) :
  dict_get config "model" = Some (VStr "gpt-4o-2024-11-20") ->
  create_aoai_client config args w = (Raises (AssertionError "Unsupported model"), w).
Proof. intros Hm. unfold create_aoai_client, getitem. now rewrite Hm. Qed.

Lemma create_aoai_client_gpt41 (config args : dict) (w : World) :
  dict_get config "model" = Some (VStr "gpt-4.1") ->
  exists kwargs,
    create_aoai_client config args w
      = (Returns (AzureOpenAIChatCompletionClient kwargs,
                  "  created through Azure OpenAI", kwargs),
         add_clients w [AzureOpenAIChatCompletionClient kwargs]) /\
    dict_get kwargs "azure_deployment" = Some (VStr "gpt-4.1") /\
    dict_get kwargs "azure_endpoint" = Some (VStr "https://aipmaker.openai.azure.com/") /\
    dict_get kwargs "api_version" = Some (VStr "2024-12-01-preview").
Proof.
  intros Hm. unfold create_aoai_client, getitem. rewrite Hm. simpl.
  eexists. split; [reflexivity|]. repeat split; dict_solve.
Qed.

(** C1, at the pair the specification gives as its first example: the
    Azure path raises "Unsupported model" for gpt-4o-2024-11-20, a model of
    its own mapping, before any client is constructed. *)
Theorem aoai_gpt4o_is_rejected (py_str : value -> string)
    (resolved_model : Client -> value) (w : World) :
  create_client py_str resolved_model
    (sampling_config "azure_openai" "gpt-4o-2024-11-20") w
  = (Raises (AssertionError "Unsupported model"), entered w).
Proof. reflexivity. Qed.

Lemma create_trapi_client_mapped (config args : dict) (w : World) (m : string) :
  dict_get config "model" = Some (VStr m) ->
  In m trapi_models ->
  exists kwargs deployment version,
    trapi_branch (VStr m) = Some (deployment, version) /\
    create_trapi_client config args w
      = (Returns (AzureOpenAIChatCompletionClient kwargs,
                  "  created through TRAPI", kwargs),
         add_clients w [AzureOpenAIChatCompletionClient kwargs]) /\
    dict_get kwargs "azure_deployment" = Some (VStr deployment) /\
    dict_get kwargs "azure_endpoint"
      = Some (VStr "https://trapi.research.microsoft.com/msraif/shared") /\
    dict_get kwargs "api_version" = Some (VStr "2025-03-01-preview") /\
    dict_get kwargs "model_version"
      = (if String.eqb m "o3-mini" then Some (VStr "2025-01-31")
         else dict_get args "model_version").
Proof.
  intros Hm Hin. unfold create_trapi_client, getitem. rewrite Hm.
  simpl in Hin.
  repeat (destruct Hin as [<- | Hin];
          [ simpl; do 3 eexists; split; [reflexivity|]; split; [reflexivity|];
            repeat split; dict_solve | ]).
  contradiction.
Qed.

(** [trapi_models] lists exactly the names that the chain of
    [create_trapi_client] accepts, and [trapi_deployments] their branches. *)
Lemma trapi_models_mapped (m : string) :
  In m trapi_models <-> trapi_branch (VStr m) <> None.
Proof.
  split.
  - simpl. intros H.
    repeat (destruct H as [<- | H]; [discriminate|]). contradiction.
  - intros H. destruct (in_dec string_dec m trapi_models) as [Hin|Hout];
      [exact Hin|].
    exfalso. apply H, trapi_branch_unmapped. intros m' Hin [= ->]. contradiction.
Qed.

Lemma trapi_deployments_models : map fst trapi_deployments = trapi_models.
Proof. reflexivity. Qed.

Lemma carries_model_version_iff (m : string) :
  carries_model_version m = true <->
  m = "o3-mini" \/ m = "o4-mini" \/ m = "o4-mini-2025-04-16".
Proof.
  unfold carries_model_version, trapi_branch, eq_str.
  repeat match goal with
         | |- context [String.eqb m ?s] =>
             destruct (String.eqb_spec m s) as [-> | ?]
         end;
    simpl; split; intros H; try discriminate; try tauto;
    try (repeat destruct H as [H | H]; discriminate);
    try (repeat destruct H as [H | H]; contradiction).
Qed.

(** C6, as stated, fails: the branches that assign [model_version] are
    those of three model names, not of two. *)
Lemma three_models_carry_a_version :
  filter carries_model_version trapi_models
    = [ "o3-mini"; "o4-mini"; "o4-mini-2025-04-16" ] /\
  ~ (exists a b : string,
       forall m, carries_model_version m = true <-> m = a \/ m = b).
Proof.
  split; [reflexivity|].
  intros (a & b & H).
  pose proof (proj1 (H "o3-mini") eq_refl) as H1.
  pose proof (proj1 (H "o4-mini") eq_refl) as H2.
  pose proof (proj1 (H "o4-mini-2025-04-16") eq_refl) as H3.
  destruct H1 as [H1 | H1], H2 as [H2 | H2], H3 as [H3 | H3]; congruence.
Qed.

(** The version string that each branch of the TRAPI chain assigns. *)
Lemma trapi_branch_version (m v : string) :
  (exists deployment, trapi_branch (VStr m) = Some (deployment, Some v)) <->
  (m = "o3-mini" /\ v = "2025-01-31") \/
  (m = "o4-mini" /\ v = "2025-04-16") \/
  (m = "o4-mini-2025-04-16" /\ v = "2025-04-16").
Proof.
  split.
  - intros (deployment & H). revert H. unfold trapi_branch, eq_str.
    repeat match goal with
           | |- context [String.eqb m ?s] =>
               destruct (String.eqb_spec m s) as [-> | ?]
           end;
      simpl; intros [= _ <-] || discriminate; tauto.
  - intros [(-> & ->) | [(-> & ->) | (-> & ->)]]; eexists; reflexivity.
Qed.

(** C6, amended. In the TRAPI path the local [model_version] is assigned
    for exactly three model names (o3-mini, o4-mini, o4-mini-2025-04-16),
    with the string of the branch; and for every model name of the mapping
    the path returns a client whose arguments hold [model_version], with
    the string of its branch, when the name is o3-mini and hold no such
    key for any other name. *)
Theorem trapi_model_version_forwarding :
  (forall m, carries_model_version m = true <->
             m = "o3-mini" \/ m = "o4-mini" \/ m = "o4-mini-2025-04-16") /\
  (forall m v,
     (exists deployment, trapi_branch (VStr m) = Some (deployment, Some v)) <->
     (m = "o3-mini" /\ v = "2025-01-31") \/
     (m = "o4-mini" /\ v = "2025-04-16") \/
     (m = "o4-mini-2025-04-16" /\ v = "2025-04-16")) /\
  (forall (config args : dict) (w : World) (m : string),
     shared_args config = Returns args ->
     dict_get config "model" = Some (VStr m) ->
     In m trapi_models ->
     exists kwargs,
       create_trapi_client config args w
         = (Returns (AzureOpenAIChatCompletionClient kwargs,
                     "  created through TRAPI", kwargs),
            add_clients w [AzureOpenAIChatCompletionClient kwargs]) /\
       (m = "o3-mini" -> dict_get kwargs "model_version" = Some (VStr "2025-01-31")) /\
       (m <> "o3-mini" -> dict_contains kwargs "model_version" = false)).
Proof.
  split; [exact carries_model_version_iff|].
  split; [exact trapi_branch_version|].
  intros config args w m Hs Hm Hin.
  destruct (create_trapi_client_mapped config args w m Hm Hin)
    as (kwargs & deployment & version & _ & Hrun & _ & _ & _ & Hv).
  destruct (shared_args_returns config args Hs) as (_ & _ & _ & _ & Hnone).
  exists kwargs. split; [exact Hrun|]. split.
  - intros ->. exact Hv.
  - intros Hne. unfold dict_contains. rewrite Hv.
    destruct (String.eqb_spec m "o3-mini"); [contradiction|]. now rewrite Hnone.
Qed.

(** ** The clients a call constructs *)

Lemma skipn_length_app {A : Type} (a b : list A) : skipn (length a) (a ++ b) = b.
Proof. induction a; simpl; auto. Qed.

Section NewClients.

Variable py_str : value -> string.
Variable resolved_model : Client -> value.
Variable config : dict.
Variable w : World.

Lemma new_clients_shared_raises (e : exn) :
  shared_args config = Raises e ->
  new_clients w (snd (create_client py_str resolved_model config w)) = [].
Proof.
  intros Hs. rewrite (create_client_shared_raises _ _ _ _ _ Hs).
  unfold new_clients. simpl. rewrite <- (app_nil_r (constructed w)) at 2.
  apply skipn_length_app.
Qed.

Lemma new_clients_dispatch_raises (args : dict) (e : exn) (w1 : World) :
  shared_args config = Returns args ->
  dispatch config args (entered w) = (Raises e, w1) ->
  new_clients w (snd (create_client py_str resolved_model config w)) = [].
Proof.
  intros Hs Hd. rewrite (create_client_dispatch_raises _ _ _ _ _ _ _ Hs Hd).
  pose proof (dispatch_post config args (entered w)) as P. rewrite Hd in P.
  simpl in P. subst w1. unfold new_clients. simpl.
  rewrite <- (app_nil_r (constructed w)) at 2. apply skipn_length_app.
Qed.

(** A call whose dispatch returns constructs the client of the provider
    path first, and after it recorders only. *)
Lemma new_clients_dispatch_returns (args args' : dict) (client : Client)
    (source : string) (w1 : World) :
  shared_args config = Returns args ->
  dispatch config args (entered w) = (Returns (client, source, args'), w1) ->
  exists l,
    new_clients w (snd (create_client py_str resolved_model config w)) = client :: l /\
    Forall is_recorder l.
Proof.
  intros Hs Hd. rewrite (create_client_dispatch_returns _ _ _ _ _ _ _ _ _ Hs Hd).
  pose proof (dispatch_post config args (entered w)) as P. rewrite Hd in P.
  simpl in P. destruct P as (-> & _).
  destruct (after_dispatch_effects py_str resolved_model config client source args'
              (mkWorld (environ w) (logged w ++ [enter_function])
                 (constructed w ++ [client]))) as (l & Hc & Hl & _).
  exists l. split; [|exact Hl].
  unfold new_clients. rewrite Hc. simpl. rewrite <- app_assoc.
  apply skipn_length_app.
Qed.

End NewClients.

(** C9. Every SDK client that a call of [create_client] constructs
    receives, under the key [model], exactly the value of
    [config["model"]]. *)
Theorem constructed_client_keeps_model (py_str : value -> string)
    (resolved_model : Client -> value) (config : dict) (w : World)
    (c : Client) (kwargs : dict) :
  In c (new_clients w (snd (create_client py_str resolved_model config w))) ->
  c = OpenAIChatCompletionClient kwargs \/ c = AzureOpenAIChatCompletionClient kwargs ->
  exists model,
    dict_get config "model" = Some model /\ dict_get kwargs "model" = Some model.
Proof.
  intros Hin Hc.
  destruct (shared_args config) as [args|e] eqn:Hs.
  2:{ rewrite (new_clients_shared_raises _ _ _ _ e Hs) in Hin. contradiction. }
  destruct (dispatch config args (entered w)) as [[[[client source] args']|e] w1] eqn:Hd.
  2:{ rewrite (new_clients_dispatch_raises _ _ _ _ args e w1 Hs Hd) in Hin.
      contradiction. }
  destruct (new_clients_dispatch_returns py_str resolved_model config w
              args args' client source w1 Hs Hd) as (l & Hnew & Hl).
  rewrite Hnew in Hin.
  pose proof (dispatch_post config args (entered w)) as P. rewrite Hd in P.
  simpl in P. destruct P as (_ & Hclient & Hmodel & _).
  destruct (shared_args_returns config args Hs) as (m & Hcm & Ham & _).
  destruct Hin as [<- | Hin].
  - exists (VStr m). split; [exact Hcm|].
    destruct Hclient as [-> | ->], Hc as [Hc | Hc]; try discriminate;
      injection Hc as <-; congruence.
  - rewrite Forall_forall in Hl. specialize (Hl c Hin).
    destruct Hc as [-> | ->]; contradiction.
Qed.

(** ** The alternate gateway *)

Lemma create_phi_client_returns (args : dict) (w : World) :
  exists kwargs,
    create_phi_client args w
      = (Returns (OpenAIChatCompletionClient kwargs,
                  "  created through Azure OpenAI", kwargs),
         add_clients w [OpenAIChatCompletionClient kwargs]) /\
    dict_get kwargs "api_key"
      = Some (match environ_get (environ w) "PHYAGI_API_KEY" with
              | Some s => VStr s
              | None => VNone
              end) /\
    dict_get kwargs "base_url" = Some (VStr "https://gateway.phyagi.net/api") /\
    dict_get kwargs "model_info" = Some phi_model_info.
Proof.
  unfold create_phi_client. simpl. eexists. split; [reflexivity|].
  repeat split; dict_solve.
Qed.

Lemma dispatch_phi (config args : dict) (w : World) :
  dict_get config "provider" = Some (VStr "phi") ->
  dispatch config args w = create_phi_client args w.
Proof. intros Hp. unfold dispatch, getitem. now rewrite Hp. Qed.

(** C7. With provider phi, as soon as the shared arguments are built, the
    provider path returns a client; that client is the first one the call
    constructs, and the arguments it received hold the base URL of the
    gateway and a [model_info] whose five capability flags are false and
    whose family is phi. *)
Theorem phi_resolved_arguments (py_str : value -> string)
    (resolved_model : Client -> value) (config args : dict) (w : World) :
  dict_get config "provider" = Some (VStr "phi") ->
  shared_args config = Returns args ->
  exists kwargs model_info l,
    dispatch config args (entered w)
      = (Returns (OpenAIChatCompletionClient kwargs,
                  "  created through Azure OpenAI", kwargs),
         add_clients (entered w) [OpenAIChatCompletionClient kwargs]) /\
    new_clients w (snd (create_client py_str resolved_model config w))
      = OpenAIChatCompletionClient kwargs :: l /\
    dict_get kwargs "base_url" = Some (VStr "https://gateway.phyagi.net/api") /\
    dict_get kwargs "model_info" = Some (VDict model_info) /\
    dict_get model_info "vision" = Some (VBool false) /\
    dict_get model_info "function_calling" = Some (VBool false) /\
    dict_get model_info "json_output" = Some (VBool false) /\
    dict_get model_info "structured_output" = Some (VBool false) /\
    dict_get model_info "multiple_system_messages" = Some (VBool false) /\
    dict_get model_info "family" = Some (VStr "phi").
Proof.
  intros Hp Hs.
  destruct (create_phi_client_returns args (entered w))
    as (kwargs & Hrun & _ & Hurl & Hinfo).
  rewrite <- (dispatch_phi config args (entered w) Hp) in Hrun.
  destruct (new_clients_dispatch_returns py_str resolved_model config w
              args kwargs _ _ _ Hs Hrun) as (l & Hnew & _).
  exists kwargs. eexists. exists l.
  split; [exact Hrun|]. split; [exact Hnew|]. split; [exact Hurl|].
  split; [exact Hinfo|]. repeat split.
Qed.



(** ** Outcomes and the world *)

(** The outcome of the dispatch depends on the world through the
    environment only. *)
Lemma dispatch_fst (config args : dict) (w w' : World) :
  environ w = environ w' ->
  fst (dispatch config args w) = fst (dispatch config args w').
Proof.
  intros He. unfold dispatch, getitem.
  destruct (dict_get config "provider") as [provider|]; simpl; [|reflexivity].
  destruct (eq_str provider "openai").
  { unfold create_oai_client, dict_contains, getitem.
    destruct (dict_get config "api_key"); reflexivity. }
  destruct (eq_str provider "azure_openai").
  { unfold create_aoai_client, getitem.
    destruct (dict_get config "model") as [model|]; simpl; [|reflexivity].
    destruct (eq_str model "gpt-4o-2024-11-20"), (eq_str model "gpt-4.1");
      reflexivity. }
  destruct (eq_str provider "trapi").
  { unfold create_trapi_client, getitem.
    destruct (dict_get config "model") as [model|]; simpl; [|reflexivity].
    destruct (trapi_branch model) as [[azure_deployment [model_version|]]|];
      simpl; [| |reflexivity]; destruct (eq_str model "o3-mini"); reflexivity. }
  destruct (eq_str provider "phi"); [|reflexivity].
  unfold create_phi_client. simpl. now rewrite He.
Qed.

(** ** The recording wrappers *)

(** C5. Let the provider path return [client].  If the configuration holds
    [ChatCompletionClientRecorder] with a false [enabled] and does not hold
    [ClientRecorder], the call returns [client] itself.  If it holds
    [ClientRecorder], whatever that entry contains, every client the call
    returns is a recorder built from the entry's [mode] and
    [session_filename], around what the first recorder step handed on; and
    the call does return it as soon as the first step returns and the entry
    has these two fields.  No [enabled] field of the entry is read. *)
Theorem recorder_gating (py_str : value -> string)
    (resolved_model : Client -> value) (config : dict) (w : World)
    (args args' : dict) (client : Client) (source : string) :
  shared_args config = Returns args ->
  fst (dispatch config args w) = Returns (client, source, args') ->
  (forall wc enabled,
     dict_get config "ChatCompletionClientRecorder" = Some (VDict wc) ->
     dict_get wc "enabled" = Some enabled ->
     truthy enabled = false ->
     dict_get config "ClientRecorder" = None ->
     fst (create_client py_str resolved_model config w) = Returns client) /\
  (forall wc,
     dict_get config "ClientRecorder" = Some wc ->
     (forall c,
        fst (create_client py_str resolved_model config w) = Returns c ->
        exists inner mode session,
          c = ChatCompletionClientRecorder inner mode session /\
          fst (wrap_ChatCompletionClientRecorder config client w) = Returns inner /\
          subscript wc "mode" = Returns mode /\
          subscript wc "session_filename" = Returns session) /\
     (forall inner mode session,
        fst (wrap_ChatCompletionClientRecorder config client w) = Returns inner ->
        subscript wc "mode" = Returns mode ->
        subscript wc "session_filename" = Returns session ->
        fst (create_client py_str resolved_model config w)
          = Returns (ChatCompletionClientRecorder inner mode session))).
Proof.
  intros Hs Hd.
  rewrite (dispatch_fst config args w (entered w) eq_refl) in Hd.
  destruct (dispatch config args (entered w)) as [o w1] eqn:Hrun.
  simpl in Hd. subst o.
  rewrite (create_client_dispatch_returns py_str resolved_model config w w1
             args args' client source Hs Hrun).
  rewrite after_dispatch_unfold.
  set (w2 := reported py_str resolved_model client source args' w1).
  split.
  - intros wc enabled Hcc Hen Ht Hcr.
    unfold wrap_ChatCompletionClientRecorder, wrap_ClientRecorder,
      dict_contains, getitem.
    rewrite Hcc. simpl. unfold getitem. rewrite Hen. simpl. rewrite Ht. simpl.
    rewrite Hcr. reflexivity.
  - intros wc Hcr.
    rewrite (surjective_pairing (wrap_ChatCompletionClientRecorder config client w2)).
    rewrite (wrap_ChatCompletionClientRecorder_fst config client w2 w).
    destruct (fst (wrap_ChatCompletionClientRecorder config client w)) as [c1|e].
    2:{ split; [intros c [=] | intros inner mode session [=]]. }
    unfold wrap_ClientRecorder, dict_contains, getitem. rewrite Hcr. simpl.
    destruct (subscript wc "mode") as [mode|e1]; simpl.
    2:{ split; [intros c [=] | intros inner mode session _ [=]]. }
    destruct (subscript wc "session_filename") as [session|e2]; simpl.
    2:{ split; [intros c [=] | intros inner mode' session _ _ [=]]. }
    split.
    + intros c [= <-]. now exists c1, mode, session.
    + intros inner mode' session' [= <-] [= <-] [= <-]. reflexivity.
Qed.

(** ** The logged dump *)

Lemma dict_del_set_same (d : dict) (k : string) (v : value) :
  dict_del (dict_set d k v) k = dict_del d k.
Proof.
  unfold dict_del. induction d as [|[k0 v0] d IH]; simpl.
  - now rewrite String.eqb_refl.
  - destruct (String.eqb k0 k) eqn:E; simpl.
    + now rewrite String.eqb_refl.
    + rewrite E. simpl. now rewrite IH.
Qed.

Lemma dict_del_set_other (d : dict) (k k' : string) (v : value) :
  k <> k' -> dict_del (dict_set d k' v) k = dict_set (dict_del d k) k' v.
Proof.
  intros Hk. unfold dict_del. induction d as [|[k0 v0] d IH]; simpl.
  - destruct (String.eqb_spec k' k); [congruence | reflexivity].
  - destruct (String.eqb_spec k0 k') as [->|Hne]; simpl.
    + destruct (String.eqb_spec k' k); [congruence|]. simpl.
      now rewrite String.eqb_refl.
    + destruct (String.eqb_spec k0 k); simpl; [exact IH|].
      destruct (String.eqb_spec k0 k'); [contradiction|]. now rewrite IH.
Qed.

Lemma agree_set_set (config : dict) (v1 v2 : value) :
  agree (dict_set config "api_key" v1) (dict_set config "api_key" v2).
Proof.
  intros k Hk. rewrite !dict_get_set_other by congruence. reflexivity.
Qed.

Lemma agree_set_del (config : dict) (v : value) :
  agree (dict_set config "api_key" v) (dict_del config "api_key").
Proof.
  intros k Hk. rewrite dict_get_set_other, dict_get_del_other by congruence.
  reflexivity.
Qed.

Lemma shared_args_agree (c1 c2 : dict) :
  agree c1 c2 -> shared_args c1 = shared_args c2.
Proof.
  intros H. unfold shared_args, getitem.
  rewrite (H "model"), (H "reasoning_effort"), (H "max_completion_tokens"),
    (H "max_retries"), (H "temperature"), (H "presence_penalty"),
    (H "frequency_penalty"), (H "top_p") by discriminate.
  reflexivity.
Qed.

Section Dump.

Variable py_str : value -> string.
Variable resolved_model : Client -> value.

Lemma args_str_del (args : dict) :
  args_str py_str (dict_del args "api_key") = args_str py_str args.
Proof.
  unfold args_str, dict_del. f_equal. f_equal.
  induction args as [|[k v] args IH]; simpl; [reflexivity|].
  destruct (String.eqb k "api_key") eqn:E; simpl; [exact IH|].
  rewrite E. simpl. now rewrite IH.
Qed.

Lemma args_str_set (args : dict) (v : value) :
  args_str py_str (dict_set args "api_key" v) = args_str py_str args.
Proof.
  rewrite <- (args_str_del (dict_set args "api_key" v)), dict_del_set_same.
  apply args_str_del.
Qed.

(** The dumps a call logs: one, of the resolved arguments without their
    [api_key], when the dispatch returns; none otherwise. *)
Lemma create_client_dumps (config : dict) (w : World) :
  logged_dumps (snd (create_client py_str resolved_model config w)) =
  (logged_dumps w ++
   match shared_args config with
   | Returns args =>
       match resolved_dump (fst (dispatch config args w)) with
       | Some d => [info ("  Client args:" ++ newline ++ args_str py_str d)]
       | None => []
       end
   | Raises _ => []
   end)%list.
Proof.
  assert (He : logged_dumps (entered w) = logged_dumps w).
  { unfold logged_dumps, entered. simpl. rewrite filter_app. simpl.
    apply app_nil_r. }
  destruct (shared_args config) as [args|e] eqn:Hs.
  2:{ rewrite (create_client_shared_raises _ _ _ _ _ Hs). simpl.
      now rewrite He, app_nil_r. }
  rewrite (dispatch_fst config args w (entered w) eq_refl).
  pose proof (dispatch_post config args (entered w)) as P.
  destruct (dispatch config args (entered w))
    as [[[[client source] args']|e] w1] eqn:Hd; simpl in P.
  - destruct P as (-> & _ & _ & Hsrc).
    rewrite (create_client_dispatch_returns _ _ _ _ _ _ _ _ _ Hs Hd).
    match goal with
    | |- context [after_dispatch _ _ _ _ _ _ ?W] =>
        destruct (after_dispatch_effects py_str resolved_model config
                    client source args' W) as (l & _ & _ & ->)
    end.
    rewrite (reported_dumps _ _ _ _ _ _ Hsrc). simpl resolved_dump.
    cbv beta match. rewrite args_str_del. f_equal. exact He.
  - subst w1. rewrite (create_client_dispatch_raises _ _ _ _ _ _ _ Hs Hd).
    simpl. now rewrite He, app_nil_r.
Qed.

End Dump.

(** What a path resolves, without the [api_key], is the same for two
    configurations that agree elsewhere, in any two environments. *)
Lemma dispatch_dump_agree (c1 c2 args : dict) (w1 w2 : World) :
  agree c1 c2 ->
  resolved_dump (fst (dispatch c1 args w1)) = resolved_dump (fst (dispatch c2 args w2)).
Proof.
  intros H. unfold dispatch, getitem.
  rewrite (H "provider") by discriminate.
  destruct (dict_get c2 "provider") as [provider|]; simpl; [|reflexivity].
  destruct (eq_str provider "openai").
  { unfold create_oai_client, dict_contains, getitem.
    destruct (dict_get c1 "api_key"), (dict_get c2 "api_key"); simpl;
      now rewrite ?dict_del_set_same. }
  destruct (eq_str provider "azure_openai").
  { unfold create_aoai_client, getitem. rewrite (H "model") by discriminate.
    destruct (dict_get c2 "model") as [model|]; simpl; [|reflexivity].
    destruct (eq_str model "gpt-4o-2024-11-20"), (eq_str model "gpt-4.1");
      reflexivity. }
  destruct (eq_str provider "trapi").
  { unfold create_trapi_client, getitem. rewrite (H "model") by discriminate.
    destruct (dict_get c2 "model") as [model|]; simpl; [|reflexivity].
    destruct (trapi_branch model) as [[azure_deployment [model_version|]]|];
      simpl; [| |reflexivity]; destruct (eq_str model "o3-mini"); reflexivity. }
  destruct (eq_str provider "phi"); [|reflexivity].
  unfold create_phi_client. simpl.
  do 2 (rewrite !(dict_del_set_other _ "api_key") by discriminate;
        rewrite dict_del_set_same).
  reflexivity.
Qed.

(** C8. The logged dump of the arguments does not show the credential:
    the dump of a dictionary is the same with any [api_key] entry set and
    with the entry removed; and the dumps a call logs are the same for two
    configurations that differ only in the value of [api_key], for a
    configuration with and without that entry, and in any two environments
    (the phi path reads its credential there). *)
Theorem dump_hides_the_credential (py_str : value -> string)
    (resolved_model : Client -> value) :
  (forall args v,
     args_str py_str (dict_set args "api_key" v) = args_str py_str args) /\
  (forall args,
     args_str py_str (dict_del args "api_key") = args_str py_str args) /\
  (forall config w v1 v2,
     logged_dumps (snd (create_client py_str resolved_model
                          (dict_set config "api_key" v1) w)) =
     logged_dumps (snd (create_client py_str resolved_model
                          (dict_set config "api_key" v2) w))) /\
  (forall config w v,
     logged_dumps (snd (create_client py_str resolved_model
                          (dict_set config "api_key" v) w)) =
     logged_dumps (snd (create_client py_str resolved_model
                          (dict_del config "api_key") w))) /\
  (forall config env1 env2 lg cs,
     logged_dumps (snd (create_client py_str resolved_model config
                          (mkWorld env1 lg cs))) =
     logged_dumps (snd (create_client py_str resolved_model config
                          (mkWorld env2 lg cs)))).
Proof.
  assert (G : forall c1 c2 w1 w2, agree c1 c2 -> logged w1 = logged w2 ->
            logged_dumps (snd (create_client py_str resolved_model c1 w1)) =
            logged_dumps (snd (create_client py_str resolved_model c2 w2))).
  { intros c1 c2 w1 w2 Ha Hl. rewrite !create_client_dumps.
    rewrite (shared_args_agree c1 c2 Ha). unfold logged_dumps.
    rewrite Hl. f_equal.
    destruct (shared_args c2) as [args|e]; [|reflexivity].
    now rewrite (dispatch_dump_agree c1 c2 args w1 w2 Ha). }
  split; [apply args_str_set|]. split; [apply args_str_del|].
  split; [|split].
  - intros config w v1 v2. apply G; [apply agree_set_set | reflexivity].
  - intros config w v. apply G; [apply agree_set_del | reflexivity].
  - intros config env1 env2 lg cs. apply G; [intros k _; reflexivity | reflexivity].
Qed.

(** * The theorems at work on example configurations *)

Lemma shared_args_family_witness :
  (exists args,
     shared_args (reasoning_config "trapi" "o1") = Returns args /\
     dict_contains args "reasoning_effort" = true /\
     forallb (fun k => negb (dict_contains args k)) sampling_keys = true) /\
  (exists args,
     shared_args (sampling_config "openai" "gpt-4.1") = Returns args /\
     forallb (dict_contains args) sampling_keys = true /\
     dict_contains args "reasoning_effort" = false).
Proof.
  split.
  - destruct (shared_args_family (reasoning_config "trapi" "o1") "o1" eq_refl)
      as [Hr _].
    destruct (Hr eq_refl) as [Hex Hkeys]. destruct (Hex eq_refl) as [args Ha].
    exists args. split; [exact Ha | exact (Hkeys args Ha)].
  - destruct (shared_args_family (sampling_config "openai" "gpt-4.1") "gpt-4.1" eq_refl)
      as [_ Hs].
    destruct (Hs eq_refl) as [Hex Hkeys]. destruct (Hex eq_refl) as [args Ha].
    exists args. split; [exact Ha | exact (Hkeys args Ha)].
Defined.

Lemma unknown_provider_witness :
  fst (create_client str_basic model_of (sampling_config "bedrock" "gpt-4.1") empty_world)
    = Raises (AssertionError "Invalid client provider") /\
  constructed
    (snd (create_client str_basic model_of (sampling_config "bedrock" "gpt-4.1") empty_world))
    = [].
Proof.
  destruct (unknown_provider_aborts str_basic model_of
              (sampling_config "bedrock" "gpt-4.1") empty_world (VStr "bedrock")
              eq_refl eq_refl) as (_ & Hc & He & _).
  split; [exact (He _ eq_refl) | exact Hc].
Defined.

Lemma unknown_model_witness :
  fst (create_client str_basic model_of (sampling_config "trapi" "gpt-5") empty_world)
    = Raises (AssertionError "Unsupported model") /\
  fst (create_client str_basic model_of (sampling_config "azure_openai" "gpt-5") empty_world)
    = Raises (AssertionError "Unsupported model").
Proof.
  split.
  - refine (proj1 (proj2 (proj2 (unknown_model_aborts str_basic model_of
                     (sampling_config "trapi" "gpt-5") empty_world "trapi"
                     eq_refl (or_intror eq_refl) _))) _ eq_refl).
    intros m Hin [= <-]. simpl in Hin.
    repeat (destruct Hin as [Hin | Hin]; [discriminate|]). exact Hin.
  - refine (proj1 (proj2 (proj2 (unknown_model_aborts str_basic model_of
                     (sampling_config "azure_openai" "gpt-5") empty_world
                     "azure_openai" eq_refl (or_introl eq_refl) _))) _ eq_refl).
    intros m Hin [= <-]. simpl in Hin.
    repeat (destruct Hin as [Hin | Hin]; [discriminate|]). exact Hin.
Defined.

Lemma trapi_model_version_witness :
  (exists kwargs,
     fst (create_trapi_client (reasoning_config "trapi" "o3-mini")
            [("model", VStr "o3-mini"); ("reasoning_effort", VStr "high")] empty_world)
       = Returns (AzureOpenAIChatCompletionClient kwargs, "  created through TRAPI", kwargs) /\
     dict_get kwargs "model_version" = Some (VStr "2025-01-31")) /\
  (exists kwargs,
     fst (create_trapi_client (reasoning_config "trapi" "o4-mini")
            [("model", VStr "o4-mini"); ("reasoning_effort", VStr "high")] empty_world)
       = Returns (AzureOpenAIChatCompletionClient kwargs, "  created through TRAPI", kwargs) /\
     dict_contains kwargs "model_version" = false).
Proof.
  split.
  - destruct (proj2 (proj2 trapi_model_version_forwarding)
                (reasoning_config "trapi" "o3-mini")
                [("model", VStr "o3-mini"); ("reasoning_effort", VStr "high")]
                empty_world "o3-mini"
                eq_refl eq_refl) as (kwargs & Hrun & Hv & _).
    { simpl. tauto. }
    exists kwargs. rewrite Hrun. split; [reflexivity | exact (Hv eq_refl)].
  - destruct (proj2 (proj2 trapi_model_version_forwarding)
                (reasoning_config "trapi" "o4-mini")
                [("model", VStr "o4-mini"); ("reasoning_effort", VStr "high")]
                empty_world "o4-mini"
                eq_refl eq_refl) as (kwargs & Hrun & _ & Hv).
    { simpl. tauto. }
    exists kwargs. rewrite Hrun. split; [reflexivity|]. apply Hv. discriminate.
Defined.

Lemma phi_resolved_arguments_witness :
  exists kwargs model_info,
    In (OpenAIChatCompletionClient kwargs)
       (constructed
          (snd (create_client str_basic model_of (sampling_config "phi" "phi-x")
                  empty_world))) /\
    dict_get kwargs "base_url" = Some (VStr "https://gateway.phyagi.net/api") /\
    dict_get kwargs "model_info" = Some (VDict model_info) /\
    dict_get model_info "vision" = Some (VBool false) /\
    dict_get model_info "family" = Some (VStr "phi").
Proof.
  destruct (phi_resolved_arguments str_basic model_of (sampling_config "phi" "phi-x")
              _ empty_world eq_refl eq_refl)
    as (kwargs & model_info & l & _ & Hnew & Hurl & Hinfo & Hv & _ & _ & _ & _ & Hf).
  exists kwargs, model_info. repeat split; try assumption.
  change (In (OpenAIChatCompletionClient kwargs)
            (new_clients empty_world
               (snd (create_client str_basic model_of (sampling_config "phi" "phi-x")
                       empty_world)))).
  rewrite Hnew. now left.
Defined.


Lemma constructed_client_keeps_model_witness :
  exists kwargs,
    In (AzureOpenAIChatCompletionClient kwargs)
       (new_clients empty_world
          (snd (create_client str_basic model_of
                  (sampling_config "azure_openai" "gpt-4.1") empty_world))) /\
    dict_get kwargs "model" = Some (VStr "gpt-4.1").
Proof.
  eexists. split.
  - left. reflexivity.
  - destruct (constructed_client_keeps_model str_basic model_of
                (sampling_config "azure_openai" "gpt-4.1") empty_world
                _ _ (or_introl eq_refl) (or_intror eq_refl)) as (model & Hc & Hk).
    rewrite Hk, <- Hc. reflexivity.
Defined.

Lemma recorder_gating_witness :
  fst (create_client str_basic model_of
         (reasoning_config "openai" "o1" ++ [recorder_off])%list empty_world)
    = Returns o1_client /\
  fst (create_client str_basic model_of
         (reasoning_config "openai" "o1" ++ [recorder_off; second_recorder_off])%list
         empty_world)
    = Returns (ChatCompletionClientRecorder o1_client (VStr "replay")
                 (VStr "session.json")).
Proof.
  split.
  - destruct (recorder_gating str_basic model_of
                (reasoning_config "openai" "o1" ++ [recorder_off])%list empty_world
                [("model", VStr "o1"); ("reasoning_effort", VStr "high")]
                [("model", VStr "o1"); ("reasoning_effort", VStr "high")]
                o1_client "  created through OpenAI" eq_refl eq_refl) as [H1 _].
    exact (H1 _ (VBool false) eq_refl eq_refl eq_refl eq_refl).
  - destruct (recorder_gating str_basic model_of
                (reasoning_config "openai" "o1" ++ [recorder_off; second_recorder_off])%list
                empty_world
                [("model", VStr "o1"); ("reasoning_effort", VStr "high")]
                [("model", VStr "o1"); ("reasoning_effort", VStr "high")]
                o1_client "  created through OpenAI" eq_refl eq_refl) as [_ H2].
    destruct (H2 _ eq_refl) as [_ H3].
    exact (H3 o1_client (VStr "replay") (VStr "session.json") eq_refl eq_refl eq_refl).
Defined.

(** ** The pairs that do resolve *)

(** X1. For every model name of the TRAPI chain the path returns a client
    whose arguments hold the deployment name of that branch, the TRAPI
    endpoint and the API version 2025-03-01-preview; and the Azure path
    does so for gpt-4.1, with its own endpoint and the API version
    2024-12-01-preview. *)
Theorem supported_pairs_resolve :
  (forall (config args : dict) (w : World) (m deployment : string),
     In (m, deployment) trapi_deployments ->
     dict_get config "model" = Some (VStr m) ->
     exists kwargs,
       create_trapi_client config args w
         = (Returns (AzureOpenAIChatCompletionClient kwargs,
                     "  created through TRAPI", kwargs),
            add_clients w [AzureOpenAIChatCompletionClient kwargs]) /\
       dict_get kwargs "azure_deployment" = Some (VStr deployment) /\
       dict_get kwargs "azure_endpoint"
         = Some (VStr "https://trapi.research.microsoft.com/msraif/shared") /\
       dict_get kwargs "api_version" = Some (VStr "2025-03-01-preview")) /\
  (forall (config args : dict) (w : World),
     dict_get config "model" = Some (VStr "gpt-4.1") ->
     exists kwargs,
       create_aoai_client config args w
         = (Returns (AzureOpenAIChatCompletionClient kwargs,
                     "  created through Azure OpenAI", kwargs),
            add_clients w [AzureOpenAIChatCompletionClient kwargs]) /\
       dict_get kwargs "azure_deployment" = Some (VStr "gpt-4.1") /\
       dict_get kwargs "azure_endpoint"
         = Some (VStr "https://aipmaker.openai.azure.com/") /\
       dict_get kwargs "api_version" = Some (VStr "2024-12-01-preview")).
Proof.
  split; [|exact create_aoai_client_gpt41].
  intros config args w m deployment Hin Hm.
  assert (Hmapped : In m trapi_models /\
                    exists v, trapi_branch (VStr m) = Some (deployment, v)).
  { simpl in Hin.
    repeat (destruct Hin as [[= <- <-] | Hin];
            [split; [simpl; tauto | eexists; reflexivity] |]).
    contradiction. }
  destruct Hmapped as (Hmod & v & Hb).
  destruct (create_trapi_client_mapped config args w m Hm Hmod)
    as (kwargs & deployment' & version & Hb' & Hrun & Hdep & Hep & Hver & _).
  rewrite Hb in Hb'. injection Hb' as <- <-.
  exists kwargs. repeat split; assumption.
Qed.

Lemma supported_pairs_witness :
  exists kwargs,
    fst (create_trapi_client (reasoning_config "trapi" "o1")
           [("model", VStr "o1"); ("reasoning_effort", VStr "high")] empty_world)
      = Returns (AzureOpenAIChatCompletionClient kwargs,
                 "  created through TRAPI", kwargs) /\
    dict_get kwargs "azure_deployment" = Some (VStr "o1_2024-12-17") /\
    dict_get kwargs "azure_endpoint"
      = Some (VStr "https://trapi.research.microsoft.com/msraif/shared") /\
    dict_get kwargs "api_version" = Some (VStr "2025-03-01-preview").
Proof.
  destruct (proj1 supported_pairs_resolve (reasoning_config "trapi" "o1")
              [("model", VStr "o1"); ("reasoning_effort", VStr "high")]
              empty_world "o1" "o1_2024-12-17") as (kwargs & Hrun & H).
  - simpl. tauto.
  - reflexivity.
  - exists kwargs. rewrite Hrun. split; [reflexivity | exact H].
Defined.

(** * Further properties of the method *)

(** ** What follows the dispatch *)

Section AfterDispatch.

Variable py_str : value -> string.
Variable resolved_model : Client -> value.
Variable config : dict.

(** The recorder steps add constructor calls only; [leave_function] is
    logged exactly when both steps return; and what is returned is the
    given client under the layers just constructed. *)
Lemma after_dispatch_cases (client : Client) (source : string) (args : dict) (w : World) :
  exists l,
    constructed (snd (after_dispatch py_str resolved_model config client source args w))
      = (constructed w ++ l)%list /\
    length l <= 2 /\
    match fst (after_dispatch py_str resolved_model config client source args w) with
    | Returns c =>
        logged (snd (after_dispatch py_str resolved_model config client source args w))
          = (logged (reported py_str resolved_model client source args w)
               ++ [leave_function])%list /\
        layers c = (layers client ++ l)%list /\
        unwrap c = unwrap client /\
        kwargs_of c = kwargs_of client
    | Raises _ =>
        logged (snd (after_dispatch py_str resolved_model config client source args w))
          = logged (reported py_str resolved_model client source args w) /\
        (l = [] \/ exists mode session,
                     l = [ChatCompletionClientRecorder client mode session])
    end.
Proof.
  rewrite after_dispatch_unfold.
  pose proof (wrap_ChatCompletionClientRecorder_step config client
                (reported py_str resolved_model client source args w)) as S1.
  destruct (wrap_ChatCompletionClientRecorder config client _) as [o1 w1].
  inversion S1 as [e | | mode session]; subst; clear S1.
  - exists []. cbn. rewrite app_nil_r. repeat split; auto.
  - pose proof (wrap_ClientRecorder_step config client
                  (reported py_str resolved_model client source args w)) as S2.
    destruct (wrap_ClientRecorder config client _) as [o2 w2].
    inversion S2 as [e | | mode session]; subst; clear S2.
    + exists []. cbn. rewrite app_nil_r. repeat split; auto.
    + exists []. cbn. rewrite !app_nil_r. repeat split; auto.
    + eexists [_]. cbn. repeat split; auto.
  - pose proof (wrap_ClientRecorder_step config
                  (ChatCompletionClientRecorder client mode session)
                  (add_clients (reported py_str resolved_model client source args w)
                     [ChatCompletionClientRecorder client mode session])) as S2.
    destruct (wrap_ClientRecorder config _ _) as [o2 w2].
    inversion S2 as [e | | mode2 session2]; subst; clear S2.
    + eexists [_]. cbn. repeat split; auto. right. eauto.
    + eexists [_]. cbn. repeat split; auto.
    + eexists [_; _]. cbn. rewrite <- !app_assoc. cbn [app]. repeat split; auto.
Qed.

End AfterDispatch.

(** The provenance string of a path is the one of the provider. *)
Lemma dispatch_provenance (config args args' : dict) (w w' : World)
    (client : Client) (source : string) :
  dispatch config args w = (Returns (client, source, args'), w') ->
  exists provider,
    dict_get config "provider" = Some provider /\ provenance provider = Some source.
Proof.
  unfold dispatch, getitem, provenance.
  destruct (dict_get config "provider") as [provider|]; simpl; [|discriminate].
  intros H. exists provider. split; [reflexivity|].
  destruct (eq_str provider "openai").
  { revert H. unfold create_oai_client, dict_contains, getitem.
    destruct (dict_get config "api_key"); simpl; congruence. }
  destruct (eq_str provider "azure_openai").
  { revert H. unfold create_aoai_client, getitem.
    destruct (dict_get config "model") as [model|]; simpl; [|discriminate].
    destruct (eq_str model "gpt-4o-2024-11-20"), (eq_str model "gpt-4.1");
      simpl; congruence. }
  destruct (eq_str provider "trapi").
  { revert H. unfold create_trapi_client, getitem.
    destruct (dict_get config "model") as [model|]; simpl; [|discriminate].
    destruct (trapi_branch model) as [[azure_deployment [model_version|]]|];
      simpl; [| |discriminate]; destruct (eq_str model "o3-mini");
      simpl; congruence. }
  destruct (eq_str provider "phi"); [|discriminate].
  revert H. unfold create_phi_client. simpl. congruence.
Qed.

(** ** The log of a call *)

(** X2. What a call logs.  When it returns a client, it has logged
    [enter_function], the three [info] lines (the resolved model of the SDK
    client at the core of what it returns, the provenance string of the
    provider, the dump of that client's arguments) and [leave_function],
    in this order and nothing else.  When it raises, it has logged
    [enter_function] alone, or [enter_function] and the three [info]
    lines: [leave_function] is not logged. *)
Theorem log_of_a_call (py_str : value -> string) (resolved_model : Client -> value)
    (config : dict) (w : World) :
  match fst (create_client py_str resolved_model config w) with
  | Returns c =>
      exists provider source,
        dict_get config "provider" = Some provider /\
        provenance provider = Some source /\
        new_events w (snd (create_client py_str resolved_model config w))
          = (enter_function
               :: client_lines py_str resolved_model (unwrap c) source (kwargs_of c)
               ++ [leave_function])%list
  | Raises _ =>
      new_events w (snd (create_client py_str resolved_model config w))
        = [enter_function] \/
      exists client source args,
        new_events w (snd (create_client py_str resolved_model config w))
          = enter_function :: client_lines py_str resolved_model client source args
  end.
Proof.
  unfold new_events.
  destruct (shared_args config) as [args|e] eqn:Hs.
  2:{ rewrite (create_client_shared_raises _ _ _ _ _ Hs). simpl. left.
      apply skipn_length_app. }
  pose proof (dispatch_post config args (entered w)) as P.
  destruct (dispatch config args (entered w))
    as [[[[client source] args']|e] w1] eqn:Hd; simpl in P.
  2:{ subst w1. rewrite (create_client_dispatch_raises _ _ _ _ _ _ _ Hs Hd).
      simpl. left. apply skipn_length_app. }
  destruct (dispatch_provenance config args args' _ _ client source Hd)
    as (provider & Hp & Hsrc).
  destruct P as (-> & Hclient & _).
  rewrite (create_client_dispatch_returns _ _ _ _ _ _ _ _ _ Hs Hd).
  match goal with
  | |- context [after_dispatch _ _ _ _ _ _ ?W] =>
      destruct (after_dispatch_cases py_str resolved_model config
                  client source args' W) as (l & _ & _ & H)
  end.
  destruct (fst (after_dispatch _ _ _ _ _ _ _)) as [c|e].
  - destruct H as (-> & _ & Hu & Hk).
    exists provider, source. split; [exact Hp|]. split; [exact Hsrc|].
    rewrite Hu, Hk. unfold reported. cbn [logged].
    rewrite <- !app_assoc. rewrite skipn_length_app.
    destruct Hclient as [-> | ->]; reflexivity.
  - destruct H as (-> & _). right. exists client, source, args'.
    unfold reported. cbn [logged]. rewrite <- !app_assoc.
    now rewrite skipn_length_app.
Qed.

(** ** The clients of a call *)

(** X3. The clients constructed by a call that returns are exactly the
    layers of the client it returns, innermost first: the SDK client of the
    provider path, then each recorder around the previous one, the last
    one being the client returned.  There are at most three. *)
Theorem constructed_are_the_layers (py_str : value -> string)
    (resolved_model : Client -> value) (config : dict) (w : World) (c : Client) :
  fst (create_client py_str resolved_model config w) = Returns c ->
  new_clients w (snd (create_client py_str resolved_model config w)) = layers c /\
  length (layers c) <= 3 /\
  ~ is_recorder (unwrap c).
Proof.
  unfold new_clients.
  destruct (shared_args config) as [args|e] eqn:Hs.
  2:{ rewrite (create_client_shared_raises _ _ _ _ _ Hs). discriminate. }
  pose proof (dispatch_post config args (entered w)) as P.
  destruct (dispatch config args (entered w))
    as [[[[client source] args']|e] w1] eqn:Hd; simpl in P.
  2:{ rewrite (create_client_dispatch_raises _ _ _ _ _ _ _ Hs Hd). discriminate. }
  destruct P as (-> & Hclient & _).
  rewrite (create_client_dispatch_returns _ _ _ _ _ _ _ _ _ Hs Hd).
  match goal with
  | |- context [after_dispatch _ _ _ _ _ _ ?W] =>
      destruct (after_dispatch_cases py_str resolved_model config
                  client source args' W) as (l & Hc & Hlen & H)
  end.
  intros Hr. rewrite Hr in H. destruct H as (_ & Hlay & Hu & _).
  rewrite Hc. cbn [constructed]. rewrite <- app_assoc, skipn_length_app.
  assert (Hbase : layers client = [client] /\ ~ is_recorder (unwrap client)).
  { destruct Hclient as [-> | ->]; split; simpl; tauto. }
  destruct Hbase as (Hb1 & Hb2).
  rewrite Hlay, Hb1, Hu. split; [reflexivity|]. split; [|exact Hb2].
  simpl. lia.
Qed.

(** ** The recorders, switched on or ill-formed *)

Section Recorders.

Variable py_str : value -> string.
Variable resolved_model : Client -> value.
Variable config : dict.
Variable w : World.
Variables args args' : dict.
Variable client : Client.
Variable source : string.

Hypothesis shared : shared_args config = Returns args.
Hypothesis dispatched : fst (dispatch config args w) = Returns (client, source, args').

(** The call continues after the dispatch in the world where the client
    of the path is the one new client. *)
Lemma create_client_after_dispatch :
  create_client py_str resolved_model config w =
  after_dispatch py_str resolved_model config client source args'
    (add_clients (entered w) [client]).
Proof.
  pose proof dispatched as Hd.
  rewrite (dispatch_fst config args w (entered w) eq_refl) in Hd.
  pose proof (dispatch_post config args (entered w)) as P.
  destruct (dispatch config args (entered w)) as [o w1] eqn:Hrun.
  simpl in Hd. subst o. simpl in P. destruct P as (-> & _).
  exact (create_client_dispatch_returns py_str resolved_model config w _
           args args' client source shared Hrun).
Qed.

Lemma new_events_reported :
  new_events w (reported py_str resolved_model client source args'
                  (add_clients (entered w) [client]))
  = enter_function :: client_lines py_str resolved_model client source args'.
Proof.
  unfold new_events, reported. cbn [logged add_clients entered].
  rewrite <- !app_assoc. apply skipn_length_app.
Qed.

Lemma new_clients_reported :
  new_clients w (reported py_str resolved_model client source args'
                   (add_clients (entered w) [client])) = [client].
Proof. unfold new_clients. cbn. apply skipn_length_app. Qed.

(** X4. A first recorder entry whose [enabled] is true in the sense of
    an [if] wraps the client with the entry's [mode] and [session_name];
    when the second entry is present too, its recorder goes around the
    first one. *)
Theorem recorders_nest (wc : dict) (enabled mode session_name : value) :
  dict_get config "ChatCompletionClientRecorder" = Some (VDict wc) ->
  dict_get wc "enabled" = Some enabled ->
  truthy enabled = true ->
  dict_get wc "mode" = Some mode ->
  dict_get wc "session_name" = Some session_name ->
  (dict_get config "ClientRecorder" = None ->
   fst (create_client py_str resolved_model config w)
     = Returns (ChatCompletionClientRecorder client mode session_name)) /\
  (forall wc2 mode2 session_filename,
     dict_get config "ClientRecorder" = Some (VDict wc2) ->
     dict_get wc2 "mode" = Some mode2 ->
     dict_get wc2 "session_filename" = Some session_filename ->
     fst (create_client py_str resolved_model config w)
       = Returns (ChatCompletionClientRecorder
                    (ChatCompletionClientRecorder client mode session_name)
                    mode2 session_filename)).
Proof.
  intros Hcc Hen Ht Hmode Hname.
  rewrite create_client_after_dispatch, after_dispatch_unfold.
  unfold wrap_ChatCompletionClientRecorder, wrap_ClientRecorder, dict_contains, getitem.
  rewrite Hcc. simpl. unfold getitem. rewrite Hen. simpl. rewrite Ht. simpl.
  rewrite Hmode. simpl. rewrite Hname. simpl. split.
  - intros Hcr. rewrite Hcr. reflexivity.
  - intros wc2 mode2 session_filename Hcr Hm2 Hf2.
    rewrite Hcr. simpl. unfold getitem. rewrite Hm2. simpl. rewrite Hf2. reflexivity.
Qed.

(** X5. A recorder entry that cannot be read is found out late.  When the
    first entry has no [enabled] (or is not a dictionary), or when the
    second entry, the first being absent, has no [mode], the call raises
    the error of that read after the client of the provider path has been
    constructed and the three [info] lines logged; that client is not
    returned and [leave_function] is not logged. *)
Theorem recorder_entry_errors :
  (forall entry e,
     dict_get config "ChatCompletionClientRecorder" = Some entry ->
     subscript entry "enabled" = Raises e ->
     fst (create_client py_str resolved_model config w) = Raises e /\
     new_clients w (snd (create_client py_str resolved_model config w)) = [client] /\
     new_events w (snd (create_client py_str resolved_model config w))
       = enter_function :: client_lines py_str resolved_model client source args') /\
  (forall entry e,
     dict_get config "ChatCompletionClientRecorder" = None ->
     dict_get config "ClientRecorder" = Some entry ->
     subscript entry "mode" = Raises e ->
     fst (create_client py_str resolved_model config w) = Raises e /\
     new_clients w (snd (create_client py_str resolved_model config w)) = [client] /\
     new_events w (snd (create_client py_str resolved_model config w))
       = enter_function :: client_lines py_str resolved_model client source args').
Proof.
  split.
  - intros entry e Hcc He.
    rewrite create_client_after_dispatch, after_dispatch_unfold.
    unfold wrap_ChatCompletionClientRecorder, dict_contains, getitem.
    rewrite Hcc. cbn [bind Monad_M lift]. rewrite He. cbn [fst snd].
    split; [reflexivity|]. split; [apply new_clients_reported | apply new_events_reported].
  - intros entry e Hcc Hcr He.
    rewrite create_client_after_dispatch, after_dispatch_unfold.
    unfold wrap_ChatCompletionClientRecorder, wrap_ClientRecorder, dict_contains, getitem.
    rewrite Hcc, Hcr. cbn [bind Monad_M lift ret]. rewrite He. cbn [fst snd].
    split; [reflexivity|]. split; [apply new_clients_reported | apply new_events_reported].
Qed.

(** X6. Without recorder entries the call returns the client of the
    provider path itself, the one client it constructs. *)
Theorem plain_call_returns_the_path_client :
  dict_get config "ChatCompletionClientRecorder" = None ->
  dict_get config "ClientRecorder" = None ->
  fst (create_client py_str resolved_model config w) = Returns client /\
  new_clients w (snd (create_client py_str resolved_model config w)) = [client].
Proof.
  intros Hcc Hcr.
  rewrite create_client_after_dispatch, after_dispatch_unfold.
  unfold wrap_ChatCompletionClientRecorder, wrap_ClientRecorder, dict_contains, getitem.
  rewrite Hcc, Hcr. cbn [bind Monad_M lift ret fst snd].
  split; [reflexivity|]. unfold new_clients. cbn. apply skipn_length_app.
Qed.

End Recorders.

(** ** Errors of the configuration *)

(** X7. A configuration that lacks what the shared arguments or the
    dispatch read is rejected before any client is constructed, with only
    [enter_function] logged: a missing model is [KeyError] on model, a
    model that is not a string is an [AttributeError], a model in o
    without [reasoning_effort] is [KeyError] on that key, any other model
    is [KeyError] on the first of the six sampling keys, in the order of
    the source, that the configuration lacks; and once the shared
    arguments are built a missing provider is [KeyError] on provider. *)
Theorem configuration_errors (py_str : value -> string)
    (resolved_model : Client -> value) (config : dict) (w : World) :
  (dict_get config "model" = None ->
   create_client py_str resolved_model config w
     = (Raises (KeyError "model"), entered w)) /\
  (forall v,
     dict_get config "model" = Some v ->
     (forall s, v <> VStr s) ->
     create_client py_str resolved_model config w
       = (Raises (AttributeError "startswith"), entered w)) /\
  (forall m,
     dict_get config "model" = Some (VStr m) ->
     String.prefix "o" m = true ->
     dict_get config "reasoning_effort" = None ->
     create_client py_str resolved_model config w
       = (Raises (KeyError "reasoning_effort"), entered w)) /\
  (forall m k,
     dict_get config "model" = Some (VStr m) ->
     String.prefix "o" m = false ->
     find (fun k => negb (dict_contains config k)) sampling_keys = Some k ->
     create_client py_str resolved_model config w = (Raises (KeyError k), entered w)) /\
  (forall args,
     shared_args config = Returns args ->
     dict_get config "provider" = None ->
     create_client py_str resolved_model config w
       = (Raises (KeyError "provider"), entered w)).
Proof.
  repeat split.
  - intros Hm. apply create_client_shared_raises.
    unfold shared_args, getitem. now rewrite Hm.
  - intros v Hm Hv. apply create_client_shared_raises.
    unfold shared_args, getitem at 1. rewrite Hm. simpl.
    destruct v; try reflexivity. now destruct (Hv s).
  - intros m Hm Hp Hr. apply create_client_shared_raises.
    rewrite (shared_args_reasoning config m Hm Hp). unfold getitem. now rewrite Hr.
  - intros m k Hm Hp Hfind. apply create_client_shared_raises.
    rewrite (shared_args_sampling config m Hm Hp).
    revert Hfind. unfold sampling_keys, getitem, dict_contains. simpl.
    destruct (dict_get config "max_completion_tokens"); simpl; [|now intros [= <-]].
    destruct (dict_get config "max_retries"); simpl; [|now intros [= <-]].
    destruct (dict_get config "temperature"); simpl; [|now intros [= <-]].
    destruct (dict_get config "presence_penalty"); simpl; [|now intros [= <-]].
    destruct (dict_get config "frequency_penalty"); simpl; [|now intros [= <-]].
    destruct (dict_get config "top_p"); simpl; [discriminate | now intros [= <-]].
  - intros args Hs Hp.
    apply (create_client_dispatch_raises py_str resolved_model config w _ args _ Hs).
    unfold dispatch, getitem. now rewrite Hp.
Qed.

(** ** Credentials and models, path by path *)

(** X8. Where the credential of a client comes from.  On the OpenAI path
    the arguments hold under [api_key] what the configuration holds there,
    and no such entry when it holds none; on the Azure and TRAPI paths
    they never hold an [api_key], whatever the configuration says; on the
    phi path they hold the value of PHYAGI_API_KEY ([None] when unset),
    whatever the configuration says. *)
Theorem api_key_sources (config args args' : dict) (w w' : World)
    (client : Client) (source : string) :
  shared_args config = Returns args ->
  dispatch config args w = (Returns (client, source, args'), w') ->
  (dict_get config "provider" = Some (VStr "openai") ->
   dict_get args' "api_key" = dict_get config "api_key") /\
  (dict_get config "provider" = Some (VStr "azure_openai") \/
   dict_get config "provider" = Some (VStr "trapi") ->
   dict_get args' "api_key" = None) /\
  (dict_get config "provider" = Some (VStr "phi") ->
   dict_get args' "api_key"
     = Some (match environ_get (environ w) "PHYAGI_API_KEY" with
             | Some s => VStr s
             | None => VNone
             end)).
Proof.
  intros Hs Hd.
  destruct (shared_args_returns config args Hs) as (m & _ & _ & Hkey & _).
  repeat split.
  - intros Hp. revert Hd. unfold dispatch, getitem. rewrite Hp. simpl.
    unfold create_oai_client, dict_contains, getitem.
    destruct (dict_get config "api_key"); simpl; intros [= _ _ <- _];
      [apply dict_get_set_same | exact Hkey].
  - intros Hp. revert Hd. unfold dispatch, getitem.
    destruct Hp as [-> | ->]; simpl.
    + unfold create_aoai_client, getitem.
      destruct (dict_get config "model") as [model|]; simpl; [|discriminate].
      destruct (eq_str model "gpt-4o-2024-11-20"), (eq_str model "gpt-4.1");
        simpl; try discriminate; intros [= _ _ <- _]; now repeat other_key.
    + unfold create_trapi_client, getitem.
      destruct (dict_get config "model") as [model|]; simpl; [|discriminate].
      destruct (trapi_branch model) as [[azure_deployment [model_version|]]|];
        simpl; [| |discriminate]; destruct (eq_str model "o3-mini");
        simpl; try discriminate; intros [= _ _ <- _]; now repeat other_key.
  - intros Hp. revert Hd. unfold dispatch, getitem. rewrite Hp. simpl.
    unfold create_phi_client. simpl. intros [= _ _ <- _]. dict_solve.
Qed.

Lemma trapi_branch_some (model : value) (locals : string * option string) :
  trapi_branch model = Some locals ->
  exists m, model = VStr m /\ In m trapi_models.
Proof.
  destruct model; try discriminate. intros H. exists s. split; [reflexivity|].
  apply trapi_models_mapped. congruence.
Qed.

(** X9. The models for which a mapped path constructs a client: the Azure
    path returns exactly when the model is gpt-4.1, the TRAPI path exactly
    when the model is one of the nine names of its chain. *)
Theorem mapped_paths_return_exactly :
  (forall config args w,
     (exists r w', create_aoai_client config args w = (Returns r, w')) <->
     dict_get config "model" = Some (VStr "gpt-4.1")) /\
  (forall config args w,
     (exists r w', create_trapi_client config args w = (Returns r, w')) <->
     exists m, In m trapi_models /\ dict_get config "model" = Some (VStr m)).
Proof.
  split; intros config args w; split.
  - intros (r & w' & H). revert H. unfold create_aoai_client, getitem.
    destruct (dict_get config "model") as [model|]; simpl; [|discriminate].
    destruct (eq_str model "gpt-4.1") eqn:E.
    + intros _. apply eq_str_true in E. now subst.
    + destruct (eq_str model "gpt-4o-2024-11-20"); discriminate.
  - intros Hm. destruct (create_aoai_client_gpt41 config args w Hm) as (k & H & _).
    eauto.
  - intros (r & w' & H). revert H. unfold create_trapi_client, getitem.
    destruct (dict_get config "model") as [model|]; simpl; [|discriminate].
    destruct (trapi_branch model) as [locals|] eqn:E; [|discriminate].
    intros _. destruct (trapi_branch_some model locals E) as (m & -> & Hin).
    exists m. now split.
  - intros (m & Hin & Hm).
    destruct (create_trapi_client_mapped config args w m Hm Hin)
      as (k & d & v & _ & H & _).
    eauto.
Qed.

(** ** The shared arguments on their way to the constructor *)

Lemma shared_args_entries (config args : dict) (k : string) (v : value) :
  shared_args config = Returns args ->
  dict_get args k = Some v ->
  dict_get config k = Some v /\
  In k ("model" :: "reasoning_effort" :: sampling_keys).
Proof.
  unfold shared_args, getitem at 1.
  destruct (dict_get config "model") as [model|] eqn:Hm; simpl; [|discriminate].
  destruct model as [ | | | |m| | ]; simpl; try discriminate.
  unfold getitem. destruct (String.prefix "o" m).
  - destruct (dict_get config "reasoning_effort") eqn:E1; simpl; [|discriminate].
    intros [= <-]. cbn [dict_get sampling_keys In].
    repeat match goal with
           | |- context [String.eqb ?a k] =>
               destruct (String.eqb_spec a k) as [<- | ?]
           end; try discriminate; intros [= <-]; split; auto 10.
  - destruct (dict_get config "max_completion_tokens") eqn:E1; simpl; [|discriminate].
    destruct (dict_get config "max_retries") eqn:E2; simpl; [|discriminate].
    destruct (dict_get config "temperature") eqn:E3; simpl; [|discriminate].
    destruct (dict_get config "presence_penalty") eqn:E4; simpl; [|discriminate].
    destruct (dict_get config "frequency_penalty") eqn:E5; simpl; [|discriminate].
    destruct (dict_get config "top_p") eqn:E6; simpl; [|discriminate].
    intros [= <-]. cbn [dict_get sampling_keys In].
    repeat match goal with
           | |- context [String.eqb ?a k] =>
               destruct (String.eqb_spec a k) as [<- | ?]
           end; try discriminate; intros [= <-]; split; auto 10.
Qed.

(** No path writes a key of the shared arguments. *)
Lemma dispatch_keeps_shared_keys (config args args' : dict) (w w' : World)
    (client : Client) (source : string) (k : string) :
  In k ("model" :: "reasoning_effort" :: sampling_keys) ->
  dispatch config args w = (Returns (client, source, args'), w') ->
  dict_get args' k = dict_get args k.
Proof.
  intros Hk. unfold dispatch, getitem.
  destruct (dict_get config "provider") as [provider|]; simpl; [|discriminate].
  simpl in Hk.
  destruct (eq_str provider "openai").
  { unfold create_oai_client, dict_contains, getitem.
    destruct (dict_get config "api_key"); simpl; intros [= _ _ <- _];
      [|reflexivity].
    repeat (destruct Hk as [<- | Hk]; [now repeat other_key|]). contradiction. }
  destruct (eq_str provider "azure_openai").
  { unfold create_aoai_client, getitem.
    destruct (dict_get config "model") as [model|]; simpl; [|discriminate].
    destruct (eq_str model "gpt-4o-2024-11-20"), (eq_str model "gpt-4.1");
      simpl; try discriminate; intros [= _ _ <- _];
      repeat (destruct Hk as [<- | Hk]; [now repeat other_key|]); contradiction. }
  destruct (eq_str provider "trapi").
  { unfold create_trapi_client, getitem.
    destruct (dict_get config "model") as [model|]; simpl; [|discriminate].
    destruct (trapi_branch model) as [[azure_deployment [model_version|]]|];
      simpl; [| |discriminate]; destruct (eq_str model "o3-mini");
      simpl; try discriminate; intros [= _ _ <- _];
      repeat (destruct Hk as [<- | Hk]; [now repeat other_key|]); contradiction. }
  destruct (eq_str provider "phi"); [|discriminate].
  unfold create_phi_client. simpl. intros [= _ _ <- _].
  repeat (destruct Hk as [<- | Hk]; [now repeat other_key|]). contradiction.
Qed.

(** X11. Every shared argument reaches the constructor untouched: what
    the shared arguments hold under a key is what the configuration holds
    under it, and the arguments that a path hands to the constructor hold
    the same value under that key.  No path drops or rewrites the model or
    a tuning parameter. *)
Theorem shared_arguments_reach_the_constructor (config args args' : dict)
    (w w' : World) (client : Client) (source : string) (k : string) (v : value) :
  shared_args config = Returns args ->
  dispatch config args w = (Returns (client, source, args'), w') ->
  dict_get args k = Some v ->
  dict_get config k = Some v /\
  dict_get args' k = Some v /\
  dict_get (kwargs_of client) k = Some v.
Proof.
  intros Hs Hd Hk.
  destruct (shared_args_entries config args k v Hs Hk) as (Hc & Hin).
  pose proof (dispatch_keeps_shared_keys config args args' w w' client source k Hin Hd)
    as Hkeep.
  pose proof (dispatch_post config args w) as P. rewrite Hd in P. simpl in P.
  destruct P as (_ & Hclient & _).
  split; [exact Hc|]. split; [congruence|].
  destruct Hclient as [-> | ->]; simpl; congruence.
Qed.

(** ** The further properties at work on example configurations *)

Lemma constructed_are_the_layers_witness :
  new_clients empty_world
    (snd (create_client str_basic model_of
            (reasoning_config "openai" "o1" ++ [recorder_on; second_recorder_off])%list
            empty_world))
  = [ o1_client;
      ChatCompletionClientRecorder o1_client (VStr "record") (VStr "session");
      ChatCompletionClientRecorder
        (ChatCompletionClientRecorder o1_client (VStr "record") (VStr "session"))
        (VStr "replay") (VStr "session.json") ].
Proof.
  exact (proj1 (constructed_are_the_layers str_basic model_of
                  (reasoning_config "openai" "o1" ++ [recorder_on; second_recorder_off])%list
                  empty_world _ eq_refl)).
Defined.

Lemma recorders_nest_witness :
  fst (create_client str_basic model_of
         (reasoning_config "openai" "o1" ++ [recorder_on])%list empty_world)
    = Returns (ChatCompletionClientRecorder o1_client (VStr "record") (VStr "session")) /\
  fst (create_client str_basic model_of
         (reasoning_config "openai" "o1" ++ [recorder_on; second_recorder_off])%list
         empty_world)
    = Returns (ChatCompletionClientRecorder
                 (ChatCompletionClientRecorder o1_client (VStr "record") (VStr "session"))
                 (VStr "replay") (VStr "session.json")).
Proof.
  split.
  - exact (proj1 (recorders_nest str_basic model_of
                    (reasoning_config "openai" "o1" ++ [recorder_on])%list empty_world
                    o1_args o1_args o1_client "  created through OpenAI" eq_refl eq_refl
                    _ (VBool true) (VStr "record") (VStr "session")
                    eq_refl eq_refl eq_refl eq_refl eq_refl) eq_refl).
  - exact (proj2 (recorders_nest str_basic model_of
                    (reasoning_config "openai" "o1" ++ [recorder_on; second_recorder_off])%list
                    empty_world
                    o1_args o1_args o1_client "  created through OpenAI" eq_refl eq_refl
                    _ (VBool true) (VStr "record") (VStr "session")
                    eq_refl eq_refl eq_refl eq_refl eq_refl)
                 _ (VStr "replay") (VStr "session.json") eq_refl eq_refl eq_refl).
Defined.

Lemma recorder_entry_errors_witness :
  fst (create_client str_basic model_of
         (reasoning_config "openai" "o1" ++ [("ChatCompletionClientRecorder", VDict [])])%list
         empty_world)
    = Raises (KeyError "enabled") /\
  new_clients empty_world
    (snd (create_client str_basic model_of
            (reasoning_config "openai" "o1"
               ++ [("ChatCompletionClientRecorder", VDict [])])%list
            empty_world))
    = [o1_client].
Proof.
  destruct (proj1 (recorder_entry_errors str_basic model_of
                     (reasoning_config "openai" "o1"
                        ++ [("ChatCompletionClientRecorder", VDict [])])%list
                     empty_world o1_args o1_args o1_client "  created through OpenAI"
                     eq_refl eq_refl)
              (VDict []) (KeyError "enabled") eq_refl eq_refl) as (H1 & H2 & _).
  split; assumption.
Defined.

Lemma plain_call_witness :
  fst (create_client str_basic model_of (reasoning_config "openai" "o1") empty_world)
    = Returns o1_client.
Proof.
  exact (proj1 (plain_call_returns_the_path_client str_basic model_of
                  (reasoning_config "openai" "o1") empty_world
                  o1_args o1_args o1_client "  created through OpenAI"
                  eq_refl eq_refl eq_refl eq_refl)).
Defined.

Lemma configuration_errors_witness :
  create_client str_basic model_of
    [ ("provider", VStr "openai"); ("model", VStr "gpt-4.1");
      ("max_completion_tokens", VInt 4096); ("top_p", VFloat 1%float) ]
    empty_world
  = (Raises (KeyError "max_retries"), entered empty_world).
Proof.
  exact (proj1 (proj2 (proj2 (proj2
           (configuration_errors str_basic model_of
              [ ("provider", VStr "openai"); ("model", VStr "gpt-4.1");
                ("max_completion_tokens", VInt 4096); ("top_p", VFloat 1%float) ]
              empty_world))))
           "gpt-4.1" "max_retries" eq_refl eq_refl eq_refl).
Defined.

Lemma api_key_sources_witness :
  exists args' : dict,
    fst (dispatch (reasoning_config "openai" "o1" ++ [("api_key", VStr "sk-example")])%list
           o1_args empty_world)
      = Returns (OpenAIChatCompletionClient args', "  created through OpenAI", args') /\
    dict_get args' "api_key" = Some (VStr "sk-example").
Proof.
  eexists. split; [reflexivity|].
  exact (proj1 (api_key_sources
                  (reasoning_config "openai" "o1" ++ [("api_key", VStr "sk-example")])%list
                  o1_args _ empty_world _ _ _ eq_refl eq_refl) eq_refl).
Defined.

Lemma shared_arguments_witness :
  exists client source args',
    fst (dispatch (reasoning_config "trapi" "o1") o1_args empty_world)
      = Returns (client, source, args') /\
    dict_get (reasoning_config "trapi" "o1") "reasoning_effort" = Some (VStr "high") /\
    dict_get args' "reasoning_effort" = Some (VStr "high") /\
    dict_get (kwargs_of client) "reasoning_effort" = Some (VStr "high").
Proof.
  do 3 eexists. split; [reflexivity|].
  exact (shared_arguments_reach_the_constructor
           (reasoning_config "trapi" "o1") o1_args _ empty_world _ _ _
           "reasoning_effort" (VStr "high") eq_refl eq_refl eq_refl).
Defined.
